(** * backend/server.py: the video-info and download handlers

    A shallow embedding of the locally written logic of [backend/server.py]:
    the URL validator, the metadata reshaping of [get_video_info] and the
    orchestration of [download_video_endpoint].  The extraction library
    (yt_dlp), pydantic's field validation, the temporary-directory service
    and the filesystem are collaborators of the handlers; they are taken as
    interfaces (type classes) and every handler is a function of them.

    Conventions of the model:
    - a Python [str] is a Rocq [string], a sequence of 8-bit characters;
      code points above 255 are outside the model.  [str.isdigit] is the
      test for the ASCII digits: of the 8-bit characters Python also counts
      the superscripts of code 178, 179 and 185 as digits, and [int] raises
      on them, so a label that holds one is outside the model as well;
    - a Python value of the library's result is a [pyval]: None, a bool, an
      int, a str, a list or a dict with str keys (floats are not modelled);
    - a handler is a computation in the monad [M]: it threads the [world]
      (the filesystem and the log of library calls) and ends in a value or
      in a raised exception;
    - [loop.run_in_executor(executor, f, ...)] followed by [await] gives the
      result of [f] or re-raises its exception, so it is modelled as the call
      of [f]. *)

From stdpp Require Import base option list gmap strings pretty.
From Stdlib Require Import ZArith Ascii Permutation Sorted Lia.
From Stdlib.Strings Require Import Byte.

Open Scope Z_scope.

(** ** Python strings *)

Module PyStr.

(** What is left of [s] after its prefix [p], when [s] starts with [p]. *)
Fixpoint strip_prefix (p s : string) : option string :=
  match p, s with
  | EmptyString, _ => Some s
  | String a p', String b s' => if Ascii.eqb a b then strip_prefix p' s' else None
  | String _ _, EmptyString => None
  end.

(** [s.startswith(p)]. *)
Definition startswith (p s : string) : bool :=
  match strip_prefix p s with
  | Some _ => true
  | None => false
  end.

(** [sub in s] on two strs. *)
Fixpoint contains (sub s : string) : bool :=
  if startswith sub s then true
  else match s with
       | EmptyString => false
       | String _ s' => contains sub s'
       end.

(** [s.replace(c, '')] for a one-character [c]. *)
Fixpoint remove_char (c : ascii) (s : string) : string :=
  match s with
  | EmptyString => EmptyString
  | String a s' =>
      if Ascii.eqb a c then remove_char c s' else String a (remove_char c s')
  end.

Definition is_digit_char (a : ascii) : bool :=
  let n := nat_of_ascii a in (48 <=? n)%nat && (n <=? 57)%nat.

Fixpoint all_digits (s : string) : bool :=
  match s with
  | EmptyString => true
  | String a s' => is_digit_char a && all_digits s'
  end.

(** [s.isdigit()]: a non-empty str of digits, the ASCII digits (the conventions
    above say what this leaves out). *)
Definition isdigit (s : string) : bool :=
  match s with
  | EmptyString => false
  | _ => all_digits s
  end.

Fixpoint int_acc (acc : Z) (s : string) : Z :=
  match s with
  | EmptyString => acc
  | String a s' => int_acc (10 * acc + (Z.of_nat (nat_of_ascii a) - 48)) s'
  end.

(** [int(s)] for a str that passed [isdigit]. *)
Definition int (s : string) : Z := int_acc 0 s.

(** The double quote, for the texts that hold one. *)
Definition dquote : string := String (ascii_of_nat 34) EmptyString.

End PyStr.

(** ** Regular expressions of Python's [re], as far as the pattern needs *)

Module Re.

Inductive regex : Type :=
| Chr (c : ascii)              (* one literal character *)
| Str (s : string)             (* literal text *)
| Dot                          (* [.]: any character but a newline *)
| NoneOf (cs : list ascii)     (* [[^...]] *)
| Cat (r1 r2 : regex)          (* r1 r2 *)
| Alt (r1 r2 : regex)          (* r1|r2 *)
| Opt (r : regex)              (* r? *)
| Plus (r : regex)             (* r+ *)
| Times (n : nat) (r : regex). (* r{n} *)

Definition newline : ascii := ascii_of_nat 10.

(** [r+] over the residuals [res] of [r]: one more match of [r], then more of
    them or none.  A match that consumes nothing leads to no new rest, so
    as many rounds as [s] has characters, and one, reach every rest. *)
Fixpoint plus_more (res : string → list string) (fuel : nat) (s : string) : list string :=
  match fuel with
  | O => []
  | S fuel' => res s ≫= (fun s' => plus_more res fuel' s' ++ [s'])
  end.

(** [r{n}] over the residuals [res] of [r]. *)
Fixpoint times_rep (res : string → list string) (n : nat) (s : string) : list string :=
  match n with
  | O => [s]
  | S n' => res s ≫= times_rep res n'
  end.

(** [residuals r s]: what is left of [s] after each way [r] matches a prefix
    of it, in the order the backtracking matcher tries them (greedy first). *)
Fixpoint residuals (r : regex) (s : string) : list string :=
  match r with
  | Chr c =>
      match s with
      | String a s' => if Ascii.eqb a c then [s'] else []
      | EmptyString => []
      end
  | Str p =>
      match PyStr.strip_prefix p s with
      | Some s' => [s']
      | None => []
      end
  | Dot =>
      match s with
      | String a s' => if Ascii.eqb a newline then [] else [s']
      | EmptyString => []
      end
  | NoneOf cs =>
      match s with
      | String a s' => if existsb (Ascii.eqb a) cs then [] else [s']
      | EmptyString => []
      end
  | Cat r1 r2 => residuals r1 s ≫= residuals r2
  | Alt r1 r2 => residuals r1 s ++ residuals r2 s
  | Opt r1 => residuals r1 s ++ [s]
  | Plus r1 => plus_more (residuals r1) (S (String.length s)) s
  | Times n r1 => times_rep (residuals r1) n s
  end.

(** [bool(re.compile(r).match(s))]: some prefix of [s] matches [r]. *)
Definition matches (r : regex) (s : string) : bool :=
  match residuals r s with
  | [] => false
  | _ :: _ => true
  end.

End Re.

Notation "r1 ~> r2" := (Re.Cat r1 r2) (at level 65, right associativity).
Notation "r1 <|> r2" := (Re.Alt r1 r2) (at level 60, right associativity).

(** ** The URL validator *)

(** [(https?://)?(www\.)?(youtube|youtu|youtube-nocookie)\.(com|be)]: the
    part of the pattern before the slash. *)
Definition domain_regex : Re.regex :=
  Re.Opt (Re.Str "http" ~> Re.Opt (Re.Chr "s") ~> Re.Str "://") ~>
  Re.Opt (Re.Str "www" ~> Re.Chr ".") ~>
  (Re.Str "youtube" <|> Re.Str "youtu" <|> Re.Str "youtube-nocookie") ~>
  Re.Chr "." ~>
  (Re.Str "com" <|> Re.Str "be").

(** [(watch\?v=|embed/|v/|.+\?v=)]: the path-marker group. *)
Definition marker_regex : Re.regex :=
  Re.Str "watch?v=" <|> Re.Str "embed/" <|> Re.Str "v/" <|>
  (Re.Plus Re.Dot ~> Re.Str "?v=").

(** [[^&=%\?]]: the characters an identifier is made of. *)
Definition id_excluded : list ascii := ["&"; "="; "%"; "?"]%char.

Definition youtube_regex : Re.regex :=
  domain_regex ~> Re.Chr "/" ~>
  Re.Opt marker_regex ~> Re.Times 11 (Re.NoneOf id_excluded).

Definition is_valid_youtube_url (url : string) : bool :=
  Re.matches youtube_regex url.

(** ** Python values, exceptions and the world *)

(** The values found in the library's result. *)
#[warnings="-register-all"]
Inductive pyval : Type :=
| PNone
| PBool (b : bool)
| PInt (z : Z)
| PStr (s : string)
| PList (l : list pyval)
| PDict (d : gmap string pyval).

Abbreviation pydict := (gmap string pyval).

(** The exception classes the handlers tell apart.  [HTTPException] is a
    subclass of [Exception], as is [DownloadError]; [PyError] stands for every
    other subclass of [Exception] and carries its [str()]. *)
Inductive exn : Type :=
| DownloadError (msg : string)
| HTTPException (status_code : Z) (detail : string)
| PyError (msg : string).

Inductive result (A : Type) : Type :=
| Ok (a : A)
| Raise (e : exn).
Arguments Ok {A} a.
Arguments Raise {A} e.

(** A directory is the sequence of its files, in the order [os.listdir] gives
    them, each with its bytes; the filesystem maps the path of a directory to
    it. *)
Abbreviation directory := (list (string * list byte)).
Abbreviation filesystem := (gmap string (list (string * list byte))).

(** The calls made to the extraction library. *)
Inductive library_call : Type :=
| ExtractInfo (url : string)
| Download (format_id outtmpl url : string).

Record world : Type := World {
  fs : filesystem;
  calls : list library_call
}.

(** ** The collaborators *)

(** What the interpreter supplies: [repr()] of a container or a str, and
    [str()] of an HTTPException (Starlette's). *)
Class Python : Type := {
  repr : pyval → string;
  http_exception_str : Z → string → string
}.

(** [yt_dlp.YoutubeDL]: [extract_info(url, download=False)] returns a dict or
    None, or raises; [download([url])] with options [format] and [outtmpl]
    returns or raises, and writes to the filesystem.  The filesystem of the
    model is the one the download handler reads, the temporary directories:
    what yt_dlp keeps on disk for itself, its cache for one, is not in it, and
    no statement is made about it. *)
Class YoutubeDL : Type := {
  ydl_extract_info : string → result (option pydict);
  ydl_download : string → string → string → filesystem → result unit * filesystem
}.

(** pydantic's validation of one field, by the annotation of the field:
    [str], [Optional[int]] and [Optional[str]]; None when the value is
    refused.  A str is accepted as it is for a [str] field. *)
Class Pydantic : Type := {
  validate_str : pyval → option string;
  validate_opt_int : pyval → option (option Z);
  validate_opt_str : pyval → option (option string);
  validation_error_str : string → string;
  validate_str_str : ∀ s, validate_str (PStr s) = Some s
}.

(** [tempfile.mkdtemp()]: the path of the directory it creates, or the error
    it raises. *)
Class Tempfile : Type := {
  mkdtemp_path : filesystem → result string
}.

(** ** The monad of the handlers *)

Definition M (A : Type) : Type := world → result A * world.

Definition ret {A} (a : A) : M A := fun w => (Ok a, w).

Definition bind {A B} (m : M A) (k : A → M B) : M B :=
  fun w =>
    match m w with
    | (Ok a, w') => k a w'
    | (Raise e, w') => (Raise e, w')
    end.

Definition raise {A} (e : exn) : M A := fun w => (Raise e, w).

(** [try: body  except ...: handler]: the handler gets the exception the body
    raised; it picks the clause. *)
Definition try_except {A} (body : M A) (handler : exn → M A) : M A :=
  fun w =>
    match body w with
    | (Ok a, w') => (Ok a, w')
    | (Raise e, w') => handler e w'
    end.

Notation "'let*' x ':=' m 'in' k" := (bind m (fun x => k))
  (at level 10, x name, m at level 100, k at level 200).

(** ** Python operations on values *)

Definition type_name (v : pyval) : string :=
  match v with
  | PNone => "NoneType"
  | PBool _ => "bool"
  | PInt _ => "int"
  | PStr _ => "str"
  | PList _ => "list"
  | PDict _ => "dict"
  end.

(** [str(v)], as an f-string formats [v]. *)
Definition py_str `{Python} (v : pyval) : string :=
  match v with
  | PNone => "None"
  | PBool true => "True"
  | PBool false => "False"
  | PInt z => pretty z
  | PStr s => s
  | PList _ | PDict _ => repr v
  end.

(** [str(e)]. *)
Definition exn_str `{Python} (e : exn) : string :=
  match e with
  | DownloadError msg => msg
  | HTTPException c d => http_exception_str c d
  | PyError msg => msg
  end.

(** [v != s] for a str literal [s]. *)
Definition ne_str (v : pyval) (s : string) : bool :=
  match v with
  | PStr s' => negb (String.eqb s' s)
  | _ => true
  end.

(** [d.get(k)] and [d.get(k, default)]. *)
Definition dict_get (d : pydict) (k : string) (default : pyval) : pyval :=
  match d !! k with
  | Some v => v
  | None => default
  end.

(** [d[k]]. *)
Definition dict_item (d : pydict) (k : string) : M pyval :=
  match d !! k with
  | Some v => ret v
  | None => raise (PyError ("'" +:+ k +:+ "'"))
  end.

(** [not info] for the dict or None the library returns. *)
Definition falsy (info : option pydict) : bool :=
  match info with
  | None => true
  | Some d => bool_decide (size d = 0%nat)
  end.

(** The items [for fmt in v] runs over. *)
Definition iterate (v : pyval) : M (list pyval) :=
  match v with
  | PList l => ret l
  | PStr s => ret ((fun c => PStr (String c EmptyString)) <$> String.list_ascii_of_string s)
  | PDict d => ret ((fun kv => PStr kv.1) <$> map_to_list d)
  | PNone | PBool _ | PInt _ =>
      raise (PyError ("'" +:+ type_name v +:+ "' object is not iterable"))
  end.

(** ** The models of the responses *)

Record VideoInfoRequest : Type := { request_url : string }.

Record VideoFormat : Type := {
  format_id : string;
  ext : string;
  quality : string;
  filesize : option Z;
  format_note : option string
}.

Record VideoInfo : Type := {
  title : string;
  duration : option Z;
  thumbnail : option string;
  uploader : option string;
  view_count : option Z;
  formats : list VideoFormat;
  url : string
}.

Record DownloadRequest : Type := {
  download_url : string;
  download_format_id : string
}.

(** [VideoFormat(format_id=..., ext=..., quality=..., filesize=...,
    format_note=...)]: every field validated, a ValidationError when one is
    refused. *)
Definition new_VideoFormat `{Pydantic}
    (v_id v_ext v_quality v_filesize v_note : pyval) : M VideoFormat :=
  match validate_str v_id, validate_str v_ext, validate_str v_quality,
        validate_opt_int v_filesize, validate_opt_str v_note with
  | Some i, Some e, Some q, Some sz, Some n =>
      ret {| format_id := i; ext := e; quality := q; filesize := sz; format_note := n |}
  | _, _, _, _, _ => raise (PyError (validation_error_str "VideoFormat"))
  end.

(** [VideoInfo(title=..., ..., formats=formats, url=request.url)]. *)
Definition new_VideoInfo `{Pydantic}
    (v_title v_duration v_thumbnail v_uploader v_views : pyval)
    (fmts : list VideoFormat) (v_url : pyval) : M VideoInfo :=
  match validate_str v_title, validate_opt_int v_duration,
        validate_opt_str v_thumbnail, validate_opt_str v_uploader,
        validate_opt_int v_views, validate_str v_url with
  | Some t, Some d, Some th, Some u, Some vc, Some ur =>
      ret {| title := t; duration := d; thumbnail := th; uploader := u;
             view_count := vc; formats := fmts; url := ur |}
  | _, _, _, _, _, _ => raise (PyError (validation_error_str "VideoInfo"))
  end.

(** ** extract_video_info *)

(** [ydl.extract_info(url, download=False)]: the call is logged. *)
Definition call_extract_info `{YoutubeDL} (u : string) : M (option pydict) :=
  fun w => (ydl_extract_info u, {| fs := fs w; calls := calls w ++ [ExtractInfo u] |}).

(** The clauses [except yt_dlp.utils.DownloadError as e] and
    [except Exception as e] of [extract_video_info]. *)
Definition extract_handler `{Python} (e : exn) : M pydict :=
  match e with
  | DownloadError error_msg =>
      if PyStr.contains "Video unavailable" error_msg
         || PyStr.contains "not available" error_msg
      then raise (HTTPException 404 "Video not found or unavailable")
      else if PyStr.contains "Private video" error_msg
      then raise (HTTPException 403 "Video is private")
      else if PyStr.contains "This video is not available" error_msg
      then raise (HTTPException 404 "Video not available")
      else raise (HTTPException 400 ("Error extracting video info: " +:+ error_msg))
  | _ => raise (HTTPException 500 ("Unexpected error: " +:+ exn_str e))
  end.

Definition extract_video_info `{Python} `{YoutubeDL} (u : string) : M pydict :=
  if negb (is_valid_youtube_url u) then
    raise (HTTPException 400 "Invalid YouTube URL format")
  else
    try_except
      (let* info := call_extract_info u in
       match info with
       | Some d =>
           if falsy info
           then raise (HTTPException 404 "Video not found or unavailable")
           else ret d
       | None => raise (HTTPException 404 "Video not found or unavailable")
       end)
      extract_handler.

(** ** get_video_info *)

(** The label of a format: [quality = fmt.get('height', 'Unknown')], then
    [f"{quality}p" if quality != 'Unknown' else fmt.get('format_note', 'Unknown')]. *)
Definition quality_str `{Python} (fmt : pydict) : pyval :=
  let quality := dict_get fmt "height" (PStr "Unknown") in
  if ne_str quality "Unknown"
  then PStr (py_str quality +:+ "p")
  else dict_get fmt "format_note" (PStr "Unknown").

(** The test of the loop: [fmt.get('vcodec') != 'none' and fmt.get('acodec') != 'none']. *)
Definition video_with_audio (fmt : pydict) : bool :=
  ne_str (dict_get fmt "vcodec" PNone) "none"
  && ne_str (dict_get fmt "acodec" PNone) "none".

(** The entry appended for a kept format. *)
Definition format_entry `{Python} `{Pydantic} (fmt : pydict) : M VideoFormat :=
  let* v_id := dict_item fmt "format_id" in
  new_VideoFormat v_id
                  (dict_get fmt "ext" (PStr "mp4"))
                  (quality_str fmt)
                  (dict_get fmt "filesize" PNone)
                  (dict_get fmt "format_note" PNone).

(** One turn of [for fmt in info['formats']]: [fmt.get] needs a dict. *)
Definition loop_body `{Python} `{Pydantic}
    (acc : list VideoFormat) (fmt : pyval) : M (list VideoFormat) :=
  match fmt with
  | PDict d =>
      if video_with_audio d
      then let* f := format_entry d in ret (acc ++ [f])
      else ret acc
  | _ => raise (PyError ("'" +:+ type_name fmt +:+ "' object has no attribute 'get'"))
  end.

Fixpoint for_formats `{Python} `{Pydantic}
    (acc : list VideoFormat) (items : list pyval) : M (list VideoFormat) :=
  match items with
  | [] => ret acc
  | fmt :: rest => let* acc' := loop_body acc fmt in for_formats acc' rest
  end.

(** The key of the sort:
    [int(x.quality.replace('p', '')) if x.quality.replace('p', '').isdigit() else 0]. *)
Definition quality_key (x : VideoFormat) : Z :=
  let digits := PyStr.remove_char "p" (quality x) in
  if PyStr.isdigit digits then PyStr.int digits else 0.

(** [formats.sort(key=..., reverse=True)]: the stable sort, greatest key
    first; entries of equal key keep the order they had. *)
Fixpoint insert_desc (x : VideoFormat) (l : list VideoFormat) : list VideoFormat :=
  match l with
  | [] => [x]
  | y :: l' =>
      if quality_key x <? quality_key y then y :: insert_desc x l'
      else x :: y :: l'
  end.

Definition sort_formats (l : list VideoFormat) : list VideoFormat :=
  foldr insert_desc [] l.

(** The body of the [try] of [get_video_info]. *)
Definition get_video_info_body `{Python} `{YoutubeDL} `{Pydantic}
    (request : VideoInfoRequest) : M VideoInfo :=
  let* info := extract_video_info (request_url request) in
  let* fmts :=
    match info !! "formats" with
    | Some v => let* items := iterate v in for_formats [] items
    | None => ret []
    end in
  let fmts := sort_formats fmts in
  new_VideoInfo (dict_get info "title" (PStr "Unknown"))
                (dict_get info "duration" PNone)
                (dict_get info "thumbnail" PNone)
                (dict_get info "uploader" PNone)
                (dict_get info "view_count" PNone)
                fmts
                (PStr (request_url request)).

(** The clauses [except HTTPException: raise] and [except Exception as e]
    of [get_video_info]. *)
Definition info_handler `{Python} {A} (e : exn) : M A :=
  match e with
  | HTTPException _ _ => raise e
  | _ => raise (HTTPException 500 ("Unexpected error: " +:+ exn_str e))
  end.

Definition get_video_info `{Python} `{YoutubeDL} `{Pydantic}
    (request : VideoInfoRequest) : M VideoInfo :=
  try_except (get_video_info_body request) info_handler.

(** ** Paths and files *)

Module Os.

Definition is_sep (a : ascii) : bool := Ascii.eqb a "/".

Definition ends_with_sep (p : string) : bool :=
  match reverse (String.list_ascii_of_string p) with
  | a :: _ => is_sep a
  | [] => false
  end.

(** [os.path.join(a, b)] of posixpath. *)
Definition path_join (a b : string) : string :=
  if PyStr.startswith "/" b then b
  else if String.eqb a "" || ends_with_sep a then a +:+ b
  else a +:+ "/" +:+ b.

(** [p] around its last separator, when it has one. *)
Fixpoint rsplit_sep (p : string) : option (string * string) :=
  match p with
  | EmptyString => None
  | String a p' =>
      match rsplit_sep p' with
      | Some (h, t) => Some (String a h, t)
      | None => if is_sep a then Some (EmptyString, p') else None
      end
  end.

(** [os.path.basename(p)]: [p[p.rfind('/') + 1:]]. *)
Definition path_basename (p : string) : string :=
  match rsplit_sep p with
  | Some (_, t) => t
  | None => p
  end.

Fixpoint all_sep (s : string) : bool :=
  match s with
  | EmptyString => true
  | String a s' => is_sep a && all_sep s'
  end.

(** [s.rstrip('/')]. *)
Fixpoint rstrip_sep (s : string) : string :=
  match s with
  | EmptyString => EmptyString
  | String a s' =>
      match rstrip_sep s' with
      | EmptyString => if is_sep a then EmptyString else String a EmptyString
      | r => String a r
      end
  end.

(** [os.path.dirname(p)]: [head = p[:p.rfind('/') + 1]], stripped of its
    trailing separators unless it is made of separators only. *)
Definition path_dirname (p : string) : string :=
  match rsplit_sep p with
  | Some (h, _) =>
      let head := h +:+ "/" in
      if all_sep head then head else rstrip_sep head
  | None => EmptyString
  end.

Fixpoint dir_lookup (name : string) (d : directory) : option (list byte) :=
  match d with
  | [] => None
  | (n, content) :: d' => if String.eqb n name then Some content else dir_lookup name d'
  end.

(** The bytes of the file at path [p]: the file named [basename p] of the
    directory [dirname p]. *)
Definition read_file (f : filesystem) (p : string) : option (list byte) :=
  match f !! path_dirname p with
  | Some d => dir_lookup (path_basename p) d
  | None => None
  end.

Definition no_such_file `{Python} (p : string) : exn :=
  PyError ("[Errno 2] No such file or directory: " +:+ repr (PStr p)).

(** [os.listdir(p)]. *)
Definition listdir `{Python} (p : string) : M (list string) :=
  fun w =>
    match fs w !! p with
    | Some d => (Ok (d.*1), w)
    | None => (Raise (no_such_file p), w)
    end.

(** [os.path.getsize(p)]. *)
Definition path_getsize `{Python} (p : string) : M Z :=
  fun w =>
    match read_file (fs w) p with
    | Some content => (Ok (Z.of_nat (length content)), w)
    | None => (Raise (no_such_file p), w)
    end.

(** The lines of a binary file, each with its line end, as iterating the
    file object gives them. *)
Fixpoint lines_from (cur : list byte) (content : list byte) : list (list byte) :=
  match content with
  | [] => match cur with [] => [] | _ => [cur] end
  | b :: rest =>
      if Byte.eqb b x0a then (cur ++ [b]) :: lines_from [] rest
      else lines_from (cur ++ [b]) rest
  end.

Definition file_lines (content : list byte) : list (list byte) := lines_from [] content.

End Os.

(** ** download_video and download_video_endpoint *)

(** [StreamingResponse(iterfile(), media_type=..., headers=headers)]: the
    generator [iterfile()] has not run yet; it holds the path it will open. *)
Record StreamingResponse : Type := {
  body_path : string;
  media_type : string;
  headers : list (string * string)
}.

(** [tempfile.mkdtemp()]: the directory is created empty. *)
Definition mkdtemp `{Tempfile} : M string :=
  fun w =>
    match mkdtemp_path (fs w) with
    | Ok d => (Ok d, {| fs := <[d := []]> (fs w); calls := calls w |})
    | Raise e => (Raise e, w)
    end.

(** [ydl.download([url])] under the options [format] and [outtmpl]. *)
Definition call_download `{YoutubeDL} (fid outtmpl u : string) : M unit :=
  fun w =>
    let '(r, f') := ydl_download fid outtmpl u (fs w) in
    (r, {| fs := f'; calls := calls w ++ [Download fid outtmpl u] |}).

Definition download_video `{Python} `{YoutubeDL}
    (u fid output_path : string) : M string :=
  try_except
    (let* _ := call_download fid output_path u in ret output_path)
    (fun e => raise (HTTPException 500 ("Error downloading video: " +:+ exn_str e))).

(** [iterfile()], run when the response is sent: the lines of the file. *)
Definition iterfile `{Python} (actual_file : string) : M (list (list byte)) :=
  fun w =>
    match Os.read_file (fs w) actual_file with
    | Some content => (Ok (Os.file_lines content), w)
    | None => (Raise (Os.no_such_file actual_file), w)
    end.

Definition download_headers (filename : string) (file_size : Z) : list (string * string) :=
  [ ("Content-Disposition",
     "attachment; filename=" +:+ PyStr.dquote +:+ filename +:+ PyStr.dquote);
    ("Content-Length", pretty file_size) ].

(** The body of the [try] of [download_video_endpoint]. *)
Definition download_body `{Python} `{YoutubeDL} `{Tempfile}
    (request : DownloadRequest) : M StreamingResponse :=
  let* temp_dir := mkdtemp in
  let output_path := Os.path_join temp_dir "%(title)s.%(ext)s" in
  let* downloaded_file :=
    download_video (download_url request) (download_format_id request) output_path in
  let* files := Os.listdir temp_dir in
  match files with
  | [] => raise (HTTPException 500 "Download failed - no file created")
  | first :: _ =>
      let actual_file := Os.path_join temp_dir first in
      let* file_size := Os.path_getsize actual_file in
      let filename := Os.path_basename actual_file in
      ret {| body_path := actual_file;
             media_type := "application/octet-stream";
             headers := download_headers filename file_size |}
  end.

Definition download_handler `{Python} {A} (e : exn) : M A :=
  match e with
  | HTTPException _ _ => raise e
  | _ => raise (HTTPException 500 ("Download error: " +:+ exn_str e))
  end.

Definition download_video_endpoint `{Python} `{YoutubeDL} `{Tempfile}
    (request : DownloadRequest) : M StreamingResponse :=
  try_except (download_body request) download_handler.

(** The status of a finished request: 200, or the status of the
    HTTPException the handler raised (an exception of another class leaves
    the handler only wrapped in one). *)
Definition status {A} (r : result A) : option Z :=
  match r with
  | Ok _ => Some 200
  | Raise (HTTPException c _) => Some c
  | Raise _ => None
  end.

(** ** The reading of the specification *)

(** A codec as the specification asks for it: non-empty and not ["none"]. *)
Definition codec_given (v : pyval) : bool :=
  match v with
  | PStr s => negb (String.eqb s "") && negb (String.eqb s "none")
  | _ => false
  end.

(** The entries the specification keeps: both codecs given. *)
Definition spec_video_with_audio (fmt : pydict) : bool :=
  codec_given (dict_get fmt "vcodec" PNone)
  && codec_given (dict_get fmt "acodec" PNone).




(** The path markers of a video URL. *)
Definition has_path_marker (u : string) : bool :=
  PyStr.contains "/watch?v=" u || PyStr.contains "/embed/" u
  || PyStr.contains "/v/" u || PyStr.contains "?v=" u.

(** A domain variant of the pattern: a string its domain part matches whole. *)
Definition domain_variant (d : string) : Prop :=
  EmptyString ∈ Re.residuals domain_regex d.

(** The characters [[^&=%\?]] accepts. *)
Definition id_string (s : string) : Prop :=
  Forall (fun c => c ∉ id_excluded) (String.list_ascii_of_string s).

(** ** Notions of the statements *)

(** The residuals [res] grow with the text: what follows the text follows
    every rest. *)
Definition extends (res : string → list string) : Prop :=
  ∀ s s' t, s' ∈ res s → (s' +:+ t) ∈ res (s +:+ t).

(** The world after the one call of [extract_info]. *)
Definition called (u : string) (w : world) : world :=
  {| fs := fs w; calls := calls w ++ [ExtractInfo u] |}.


(** The formats the loop collected for [info], before the sort. *)
Definition collected `{Python} `{Pydantic}
    (info : pydict) (fmts : list VideoFormat) (w : world) : Prop :=
  match info !! "formats" with
  | Some v => (let* items := iterate v in for_formats [] items) w = (Ok fmts, w)
  | None => fmts = []
  end.

(** The output template handed to the library. *)
Definition outtmpl (temp_dir : string) : string :=
  Os.path_join temp_dir "%(title)s.%(ext)s".

(** The world once the directory is made and the library has run. *)
Definition downloaded (request : DownloadRequest) (w : world)
    (temp_dir : string) (f' : filesystem) : world :=
  {| fs := f';
     calls := calls w ++ [Download (download_format_id request) (outtmpl temp_dir)
                                   (download_url request)] |}.

(** ** Collaborators for the examples *)

Module Sample.

Definition simple_repr (v : pyval) : string :=
  match v with
  | PStr s => "'" +:+ s +:+ "'"
  | PList _ => "[...]"
  | PDict _ => "{...}"
  | PNone => "None"
  | PBool true => "True"
  | PBool false => "False"
  | PInt z => pretty z
  end.

(** Starlette's [HTTPException.__str__]: the status, a colon, the detail. *)
Definition python : Python :=
  {| repr := simple_repr;
     http_exception_str := fun c d => pretty c +:+ ": " +:+ d |}.

Definition strict_str (v : pyval) : option string :=
  match v with PStr s => Some s | _ => None end.

Definition strict_opt_int (v : pyval) : option (option Z) :=
  match v with PNone => Some None | PInt z => Some (Some z) | _ => None end.

Definition strict_opt_str (v : pyval) : option (option string) :=
  match v with PNone => Some None | PStr s => Some (Some s) | _ => None end.

(** A pydantic that coerces nothing. *)
Definition pydantic : Pydantic :=
  {| validate_str := strict_str;
     validate_opt_int := strict_opt_int;
     validate_opt_str := strict_opt_str;
     validation_error_str := fun model => "1 validation error for " +:+ model;
     validate_str_str := fun s => eq_refl |}.

(** A library whose [extract_info] answers [r] and whose [download] writes
    the files [d] into the directory of the output template. *)
Definition library (r : result (option pydict)) (d : directory) : YoutubeDL :=
  {| ydl_extract_info := fun _ => r;
     ydl_download := fun _ outtmpl _ f => (Ok (), <[Os.path_dirname outtmpl := d]> f) |}.

Definition tempfile : Tempfile :=
  {| mkdtemp_path := fun _ => Ok "/tmp/tmpk3v9x2" |}.

Definition start : world := {| fs := ∅; calls := [] |}.

Definition rick : VideoInfoRequest :=
  {| request_url := "https://www.youtube.com/watch?v=dQw4w9WgXcQ" |}.

Definition entry (fields : list (string * pyval)) : pyval :=
  PDict (list_to_map fields).

Definition info_dict (fmts : list pyval) : pydict :=
  list_to_map [("title", PStr "Never Gonna Give You Up"); ("formats", PList fmts)].

Definition info_with (fmts : list pyval) : option pydict := Some (info_dict fmts).

(** An entry that has no [vcodec] key. *)
Definition no_vcodec : pyval :=
  entry [("format_id", PStr "140"); ("ext", PStr "m4a"); ("acodec", PStr "mp4a.40.2");
         ("height", PInt 360)].

(** An entry whose height is present and None. *)
Definition null_height : pyval :=
  entry [("format_id", PStr "18"); ("ext", PStr "mp4"); ("vcodec", PStr "avc1.42001E");
         ("acodec", PStr "mp4a.40.2"); ("height", PNone); ("format_note", PStr "medium")].

Definition combined (fid : string) (h : Z) : pyval :=
  entry [("format_id", PStr fid); ("ext", PStr "mp4"); ("vcodec", PStr "avc1.42001E");
         ("acodec", PStr "mp4a.40.2"); ("height", PInt h)].

Definition noted (fid note : string) : pyval :=
  entry [("format_id", PStr fid); ("ext", PStr "mp4"); ("vcodec", PStr "avc1.42001E");
         ("acodec", PStr "mp4a.40.2"); ("format_note", PStr note)].

Definition video_only : pyval :=
  entry [("format_id", PStr "137"); ("ext", PStr "mp4"); ("vcodec", PStr "avc1.640028");
         ("acodec", PStr "none"); ("height", PInt 1080)].

Definition sample_items : list pyval :=
  [no_vcodec; video_only; noted "a" "low"; combined "b" 360; combined "c" 720].

(** The URL of the repository's test of a URL that is not of the host. *)
Definition example_request : VideoInfoRequest :=
  {| request_url := "https://www.example.com" |}.

Definition private_message : string :=
  "ERROR: [youtube] dQw4w9WgXcQ: Private video. Sign in if you've been granted access to this video".

Definition private_unavailable_message : string :=
  "ERROR: [youtube] dQw4w9WgXcQ: Private video. Video unavailable".

Definition get_info (r : result (option pydict)) (request : VideoInfoRequest) :
    result VideoInfo * world :=
  @get_video_info python (library r []) pydantic request start.

Definition download_request : DownloadRequest :=
  {| download_url := "https://www.youtube.com/watch?v=dQw4w9WgXcQ";
     download_format_id := "18" |}.

Definition clip : list byte := [x68; x69; x0a; x79; x6f; x75; x0a; x21].

Definition download (d : directory) : result StreamingResponse * world :=
  @download_video_endpoint python (library (Ok None) d) tempfile download_request start.

End Sample.

(** ** Notions of the further statements *)

(** The least number of characters a match of [r] takes. *)
Fixpoint min_len (r : Re.regex) : nat :=
  match r with
  | Re.Chr _ | Re.Dot | Re.NoneOf _ => 1
  | Re.Str p => String.length p
  | Re.Cat r1 r2 => min_len r1 + min_len r2
  | Re.Alt r1 r2 => min_len r1 `min` min_len r2
  | Re.Opt _ => 0
  | Re.Plus r1 => min_len r1
  | Re.Times n r1 => n * min_len r1
  end.

(** The host prefixes of the pattern: scheme, [www.], host and top-level
    domain, in every combination. *)
Definition host_prefixes : list string :=
  scheme ← [""; "http://"; "https://"];
  www ← [""; "www."];
  host ← ["youtube"; "youtu"; "youtube-nocookie"];
  tld ← ["com"; "be"];
  [scheme +:+ www +:+ host +:+ "." +:+ tld].

(** The literal path markers of the pattern. *)
Definition literal_markers : list string := ["watch?v="; "embed/"; "v/"].

(** A text [.+] matches whole: not empty, and without a newline. *)
Definition dot_text (p : string) : Prop :=
  p ≠ EmptyString ∧ Forall (fun c => c ≠ Re.newline) (String.list_ascii_of_string p).

(** An element of the formats list the loop cannot turn into an entry: it is
    not a dict, or it passes the test and has no [format_id]. *)
Definition malformed (fmt : pyval) : Prop :=
  match fmt with
  | PDict d => video_with_audio d = true ∧ d !! "format_id" = None
  | _ => True
  end.

(** The statuses of the info endpoint. *)
Definition info_statuses : list Z := [200; 400; 403; 404; 500].

(** ** Further collaborators and inputs for the examples *)

Module MoreSamples.
Import Sample.

(** A library whose [download] raises [e] and writes nothing. *)
Definition failing_library (e : exn) : YoutubeDL :=
  {| ydl_extract_info := fun _ => Ok None;
     ydl_download := fun _ _ _ f => (Raise e, f) |}.

(** A [mkdtemp] that finds no room. *)
Definition full_disk : string := "[Errno 28] No space left on device: '/tmp/tmpk3v9x2'".

Definition no_tempfile : Tempfile :=
  {| mkdtemp_path := fun _ => Raise (PyError full_disk) |}.

Definition unknown_format : string :=
  "ERROR: [youtube] dQw4w9WgXcQ: Requested format is not available".


(** A kept entry with no [format_id]. *)
Definition no_format_id : pyval :=
  entry [("ext", PStr "mp4"); ("vcodec", PStr "avc1.42001E"); ("acodec", PStr "mp4a.40.2");
         ("height", PInt 360)].

Definition combined_fields : list (string * pyval) :=
  [("format_id", PStr "22"); ("ext", PStr "mp4"); ("vcodec", PStr "avc1.42001E");
   ("acodec", PStr "mp4a.40.2"); ("height", PInt 720)].

Definition one_file : directory := [("Never Gonna Give You Up.mp4", clip)].


End MoreSamples.

(** * Properties *)

(** ** Strings *)

Section Strings.
Implicit Types (s t p : string) (a : ascii).

Lemma app_cons a s t : String a s +:+ t = String a (s +:+ t).
Proof. reflexivity. Qed.

Lemma app_empty_l t : EmptyString +:+ t = t.
Proof. reflexivity. Qed.

Lemma app_empty_r s : s +:+ EmptyString = s.
Proof. induction s as [|a s IH]; [reflexivity|]. rewrite app_cons. by f_equal. Qed.

Lemma app_assoc_str s t p : (s +:+ t) +:+ p = s +:+ (t +:+ p).
Proof. induction s as [|a s IH]; [reflexivity|]. rewrite !app_cons. by f_equal. Qed.

Lemma length_app_str s t : String.length (s +:+ t) = (String.length s + String.length t)%nat.
Proof. induction s as [|a s IH]; [reflexivity|]. rewrite app_cons. cbn. by rewrite IH. Qed.

(** [strip_prefix] finds exactly the decompositions [p +:+ rest]. *)
Lemma strip_prefix_Some p s r : PyStr.strip_prefix p s = Some r ↔ s = p +:+ r.
Proof.
  revert s. induction p as [|a p IH]; intros s; cbn.
  - rewrite app_empty_l. split; congruence.
  - rewrite app_cons. destruct s as [|b s]; [split; discriminate|].
    destruct (Ascii.eqb_spec a b) as [->|Hne].
    + rewrite IH. split; [by intros ->|congruence].
    + split; [discriminate|]. intros [= ? ?]. done.
Qed.

Lemma strip_prefix_app p r : PyStr.strip_prefix p (p +:+ r) = Some r.
Proof. by apply strip_prefix_Some. Qed.

Lemma startswith_true p s : PyStr.startswith p s = true ↔ ∃ r, s = p +:+ r.
Proof.
  unfold PyStr.startswith. destruct (PyStr.strip_prefix p s) as [r|] eqn:E.
  - apply strip_prefix_Some in E. split; eauto.
  - split; [discriminate|]. intros [r Hr]. apply strip_prefix_Some in Hr. congruence.
Qed.

(** [sub in s] holds exactly when [s] is some text, [sub], and some text. *)
Lemma contains_true sub s :
  PyStr.contains sub s = true ↔ ∃ pre post, s = pre +:+ sub +:+ post.
Proof.
  induction s as [|a s IH]; cbn.
  - destruct (PyStr.startswith sub EmptyString) eqn:E.
    + apply startswith_true in E as [r Hr]. split; [|done].
      intros _. exists EmptyString, r. by rewrite app_empty_l.
    + split; [discriminate|]. intros (pre & post & H).
      destruct pre; [|discriminate]. rewrite app_empty_l in H.
      assert (PyStr.startswith sub EmptyString = true) by (apply startswith_true; eauto).
      congruence.
  - destruct (PyStr.startswith sub (String a s)) eqn:E.
    + apply startswith_true in E as [r Hr]. split; [|done].
      intros _. exists EmptyString, r. by rewrite app_empty_l.
    + rewrite IH. split.
      * intros (pre & post & ->). exists (String a pre), post. by rewrite app_cons.
      * intros (pre & post & H). destruct pre as [|b pre].
        -- rewrite app_empty_l in H.
           assert (PyStr.startswith sub (String a s) = true) by (apply startswith_true; eauto).
           congruence.
        -- rewrite app_cons in H. injection H as -> ->. eauto.
Qed.

(** A text that holds [sub] holds every part of [sub]. *)
Lemma contains_part l sub r s :
  PyStr.contains (l +:+ sub +:+ r) s = true → PyStr.contains sub s = true.
Proof.
  rewrite !contains_true. intros (pre & post & ->).
  exists (pre +:+ l), (r +:+ post). by rewrite !app_assoc_str.
Qed.

End Strings.

(** ** The matcher *)

Section Matcher.
Implicit Types (r : Re.regex) (s t : string) (res : string → list string).

Lemma plus_more_mono res n m s x :
  (n ≤ m)%nat → x ∈ Re.plus_more res n s → x ∈ Re.plus_more res m s.
Proof.
  revert m s x. induction n as [|n IH]; intros m s x Hle; cbn.
  - by intros ?%elem_of_nil.
  - destruct m as [|m]; [lia|]. cbn.
    rewrite !list_elem_of_bind. intros (y & Hx & Hy). exists y. split; [|done].
    rewrite elem_of_app in Hx |- *. destruct Hx as [Hx|Hx]; [left|by right].
    apply IH; [lia|done].
Qed.

Lemma plus_more_extends res n : extends res → extends (Re.plus_more res n).
Proof.
  intros Hres. induction n as [|n IH]; intros s s' t; cbn.
  - by intros ?%elem_of_nil.
  - rewrite !list_elem_of_bind. intros (y & Hx & Hy).
    exists (y +:+ t). split; [|by apply Hres].
    rewrite elem_of_app in Hx |- *. destruct Hx as [Hx|Hx].
    + left. by apply IH.
    + right. apply list_elem_of_singleton in Hx as ->. by apply list_elem_of_singleton.
Qed.

Lemma times_rep_extends res n : extends res → extends (Re.times_rep res n).
Proof.
  intros Hres. induction n as [|n IH]; intros s s' t; cbn.
  - intros ->%list_elem_of_singleton. by apply list_elem_of_singleton.
  - rewrite !list_elem_of_bind. intros (y & Hx & Hy).
    exists (y +:+ t). split; [by apply IH|by apply Hres].
Qed.

Lemma residuals_extends r : extends (Re.residuals r).
Proof.
  induction r as [c|p| |cs|r1 IH1 r2 IH2|r1 IH1 r2 IH2|r1 IH1|r1 IH1|n r1 IH1];
    intros s s' t; cbn [Re.residuals].
  - destruct s as [|a s]; [by intros ?%elem_of_nil|]. rewrite app_cons.
    destruct (Ascii.eqb a c); [|by intros ?%elem_of_nil].
    intros ->%list_elem_of_singleton. by apply list_elem_of_singleton.
  - destruct (PyStr.strip_prefix p s) as [x|] eqn:E; [|by intros ?%elem_of_nil].
    intros ->%list_elem_of_singleton. apply strip_prefix_Some in E as ->.
    rewrite app_assoc_str, strip_prefix_app. by apply list_elem_of_singleton.
  - destruct s as [|a s]; [by intros ?%elem_of_nil|]. rewrite app_cons.
    destruct (Ascii.eqb a Re.newline); [by intros ?%elem_of_nil|].
    intros ->%list_elem_of_singleton. by apply list_elem_of_singleton.
  - destruct s as [|a s]; [by intros ?%elem_of_nil|]. rewrite app_cons.
    destruct (existsb (Ascii.eqb a) cs); [by intros ?%elem_of_nil|].
    intros ->%list_elem_of_singleton. by apply list_elem_of_singleton.
  - rewrite !list_elem_of_bind. intros (y & Hx & Hy).
    exists (y +:+ t). split; [by apply IH2|by apply IH1].
  - rewrite !elem_of_app. intros [H|H]; [left; by apply IH1|right; by apply IH2].
  - rewrite !elem_of_app. intros [H|H]; [left; by apply IH1|right].
    apply list_elem_of_singleton in H as ->. by apply list_elem_of_singleton.
  - intros H. apply (plus_more_extends _ _ IH1 _ _ t) in H.
    eapply plus_more_mono; [|exact H]. rewrite length_app_str. lia.
  - by apply times_rep_extends.
Qed.

(** A match of [r1] followed by a match of [r2] is a match of [r1 r2]. *)
Lemma residuals_cat r1 r2 s s1 s2 :
  s1 ∈ Re.residuals r1 s → s2 ∈ Re.residuals r2 s1 → s2 ∈ Re.residuals (r1 ~> r2) s.
Proof. intros H1 H2. cbn. apply list_elem_of_bind. eauto. Qed.

(** An optional group may match nothing. *)
Lemma residuals_opt_skip r s : s ∈ Re.residuals (Re.Opt r) s.
Proof. cbn. apply elem_of_app. right. by apply list_elem_of_singleton. Qed.

(** [[^cs]{n}] takes [n] characters that are not in [cs]. *)
Lemma residuals_times_noneof cs n s t :
  String.length s = n →
  Forall (fun c => c ∉ cs) (String.list_ascii_of_string s) →
  t ∈ Re.residuals (Re.Times n (Re.NoneOf cs)) (s +:+ t).
Proof.
  cbn. revert n. induction s as [|a s IH]; intros n <- Hall; cbn.
  - by apply list_elem_of_singleton.
  - inversion Hall as [|? ? Ha Hs]; subst.
    rewrite app_cons. apply list_elem_of_bind. exists (s +:+ t). split; [by apply IH|].
    destruct (existsb (Ascii.eqb a) cs) eqn:E; [|by apply list_elem_of_singleton].
    apply existsb_exists in E as (c & Hc & Heq). apply Ascii.eqb_eq in Heq as ->.
    exfalso. apply Ha. by apply list_elem_of_In.
Qed.

Lemma matches_true r s x : x ∈ Re.residuals r s → Re.matches r s = true.
Proof. unfold Re.matches. destruct (Re.residuals r s); [by intros ?%elem_of_nil|done]. Qed.

End Matcher.

(** The URLs of the repository's tests. *)
Example valid_watch : is_valid_youtube_url "https://www.youtube.com/watch?v=dQw4w9WgXcQ" = true.
Proof. vm_compute. reflexivity. Qed.
Example valid_test_invalid : is_valid_youtube_url "https://www.youtube.com/invalid_url" = true.
Proof. vm_compute. reflexivity. Qed.
Example invalid_example : is_valid_youtube_url "https://www.example.com" = false.
Proof. vm_compute. reflexivity. Qed.
Example valid_deep : is_valid_youtube_url "youtu.be/a/b/c?v=12345678901&t=3" = true.
Proof. vm_compute. reflexivity. Qed.
Example invalid_short : is_valid_youtube_url "https://youtu.be/abc" = false.
Proof. vm_compute. reflexivity. Qed.

(** Some domain variants. *)
Example domain_variants :
  Forall domain_variant
    ["youtube.com"; "youtu.be"; "www.youtube.com"; "http://youtube.be";
     "https://www.youtube-nocookie.com"; "https://www.youtu.com"].
Proof. repeat constructor; vm_compute; apply list_elem_of_In; simpl; tauto. Qed.

(** C10: the path-marker group is optional, so a domain variant, a slash and
    any eleven characters other than [&], [=], [%] and [?] make a URL the
    validator accepts; the URL of the repository's own "invalid" test is one,
    and it holds none of the path markers. *)
Theorem validator_accepts_without_marker :
  (∃ u, has_path_marker u = false ∧ is_valid_youtube_url u = true) ∧
  (∀ d ident, domain_variant d → String.length ident = 11%nat → id_string ident →
     is_valid_youtube_url (d +:+ "/" +:+ ident) = true).
Proof.
  split.
  - exists "https://www.youtube.com/invalid_url". split; vm_compute; reflexivity.
  - intros d ident Hd Hlen Hid. unfold is_valid_youtube_url, youtube_regex.
    apply (matches_true _ _ EmptyString).
    eapply residuals_cat.
    { apply (residuals_extends _ _ _ ("/" +:+ ident)) in Hd. exact Hd. }
    rewrite app_empty_l. eapply residuals_cat.
    { cbn. by apply list_elem_of_singleton. }
    eapply residuals_cat; [apply residuals_opt_skip|].
    pose proof (residuals_times_noneof id_excluded 11 ident EmptyString Hlen Hid) as H.
    by rewrite app_empty_r in H.
Qed.

Lemma validator_accepts_without_marker_witness :
  is_valid_youtube_url ("youtu.be" +:+ "/" +:+ "a-b_c.d~e!f") = true.
Proof.
  apply (proj2 validator_accepts_without_marker).
  - vm_compute. apply list_elem_of_In. simpl. tauto.
  - reflexivity.
  - unfold id_string. cbn. repeat constructor; intros H%list_elem_of_In; simpl in H;
      repeat (destruct H as [H|H]; [discriminate H|]); exact H.
Defined.

(** ** extract_video_info *)

Section ExtractVideoInfo.
Context `{Python} `{YoutubeDL}.
Implicit Types (u : string) (w : world).

Lemma extract_invalid u w :
  is_valid_youtube_url u = false →
  extract_video_info u w = (Raise (HTTPException 400 "Invalid YouTube URL format"), w).
Proof. intros Hv. unfold extract_video_info. by rewrite Hv. Qed.

(** On a valid URL the library is called once, and its answer decides. *)
Lemma extract_valid u w :
  is_valid_youtube_url u = true →
  extract_video_info u w =
    match ydl_extract_info u with
    | Ok info =>
        match info with
        | Some d =>
            if falsy info
            then extract_handler (HTTPException 404 "Video not found or unavailable") (called u w)
            else (Ok d, called u w)
        | None => extract_handler (HTTPException 404 "Video not found or unavailable") (called u w)
        end
    | Raise e => extract_handler e (called u w)
    end.
Proof.
  intros Hv. unfold extract_video_info, try_except, bind, call_extract_info. rewrite Hv. cbn.
  destruct (ydl_extract_info u) as [[d|]|e]; try reflexivity.
  cbn. by destruct (bool_decide _).
Qed.

Lemma extract_handler_raises e w :
  ∃ c d, extract_handler e w = (Raise (HTTPException c d), w).
Proof.
  destruct e as [msg|c d|msg]; cbn; eauto.
  repeat (match goal with |- context [if ?b then _ else _] => destruct b end); cbn; eauto.
Qed.

Lemma extract_Ok u w d w' :
  extract_video_info u w = (Ok d, w') →
  is_valid_youtube_url u = true ∧ ydl_extract_info u = Ok (Some d) ∧ w' = called u w.
Proof.
  destruct (is_valid_youtube_url u) eqn:Hv.
  - rewrite (extract_valid _ _ Hv).
    destruct (ydl_extract_info u) as [[d0|]|e] eqn:E.
    + destruct (falsy (Some d0)).
      * destruct (extract_handler_raises (HTTPException 404 "Video not found or unavailable")
                    (called u w)) as (c & d1 & ->). discriminate.
      * intros [= -> <-]. done.
    + destruct (extract_handler_raises (HTTPException 404 "Video not found or unavailable")
                  (called u w)) as (c & d1 & ->). discriminate.
    + destruct (extract_handler_raises e (called u w)) as (c & d1 & ->). discriminate.
  - rewrite (extract_invalid _ _ Hv). discriminate.
Qed.

End ExtractVideoInfo.

(** ** get_video_info *)

Section GetVideoInfo.
Context `{Python} `{YoutubeDL} `{Pydantic}.
Implicit Types (request : VideoInfoRequest) (w : world).

(** An HTTPException of the body leaves [get_video_info] as it is. *)
Lemma get_video_info_reraises request w c d w' :
  get_video_info_body request w = (Raise (HTTPException c d), w') →
  get_video_info request w = (Raise (HTTPException c d), w').
Proof. intros Hb. unfold get_video_info, try_except. by rewrite Hb. Qed.

Lemma body_of_extract_raise request w e w' :
  extract_video_info (request_url request) w = (Raise e, w') →
  get_video_info_body request w = (Raise e, w').
Proof. intros He. unfold get_video_info_body, bind. by rewrite He. Qed.

Lemma get_video_info_of_extract_raise request w c d w' :
  extract_video_info (request_url request) w = (Raise (HTTPException c d), w') →
  get_video_info request w = (Raise (HTTPException c d), w').
Proof. intros He. by apply get_video_info_reraises, body_of_extract_raise. Qed.

(** C6: a URL the pattern does not match is refused with status 400, and the
    log of library calls is as it was: the library was not invoked. *)
Theorem invalid_url_rejected request w :
  is_valid_youtube_url (request_url request) = false →
  ∃ c, status (get_video_info request w).1 = Some c ∧ 400 ≤ c ∧ c < 500 ∧
       calls (get_video_info request w).2 = calls w.
Proof.
  intros Hv. exists 400.
  rewrite (get_video_info_of_extract_raise request w 400 "Invalid YouTube URL format" w);
    [|by apply extract_invalid].
  cbn. repeat split; lia.
Qed.

(** C1, as the code has it: the 404 raised for a missing or empty result is
    raised inside the [try] of [extract_video_info], whose
    [except Exception] clause turns it into a 500. *)
Theorem empty_result_status request w info :
  is_valid_youtube_url (request_url request) = true →
  ydl_extract_info (request_url request) = Ok info →
  falsy info = true →
  (get_video_info request w).1 =
    Raise (HTTPException 500
             ("Unexpected error: " +:+ http_exception_str 404 "Video not found or unavailable")).
Proof.
  intros Hv Hinfo Hf.
  erewrite get_video_info_of_extract_raise; [reflexivity|].
  rewrite (extract_valid _ _ Hv), Hinfo.
  destruct info as [d|]; [rewrite Hf|]; reflexivity.
Qed.

(** C5, with the order of the tests: a DownloadError is classified by the
    first phrase its message holds. *)
Theorem library_error_status request w e :
  is_valid_youtube_url (request_url request) = true →
  ydl_extract_info (request_url request) = Raise e →
  let r := (get_video_info request w).1 in
  (∀ msg, e = DownloadError msg →
     (PyStr.contains "Video unavailable" msg = true ∨ PyStr.contains "not available" msg = true) →
     status r = Some 404) ∧
  (∀ msg, e = DownloadError msg →
     PyStr.contains "Private video" msg = true →
     PyStr.contains "Video unavailable" msg = false →
     PyStr.contains "not available" msg = false →
     status r = Some 403) ∧
  (∀ msg, e = DownloadError msg →
     PyStr.contains "This video is not available" msg = true →
     status r = Some 404) ∧
  (∀ msg, e = DownloadError msg →
     PyStr.contains "Video unavailable" msg = false →
     PyStr.contains "not available" msg = false →
     PyStr.contains "Private video" msg = false →
     r = Raise (HTTPException 400 ("Error extracting video info: " +:+ msg))) ∧
  ((∀ msg, e ≠ DownloadError msg) →
     r = Raise (HTTPException 500 ("Unexpected error: " +:+ exn_str e))).
Proof.
  intros Hv He r.
  assert (Hfirst : ∀ msg, e = DownloadError msg →
            (PyStr.contains "Video unavailable" msg = true ∨ PyStr.contains "not available" msg = true) →
            status r = Some 404).
  { intros msg -> Hc. subst r.
    erewrite get_video_info_of_extract_raise; [reflexivity|].
    rewrite (extract_valid _ _ Hv), He. cbn.
    destruct Hc as [-> | ->]; [reflexivity|].
    by destruct (PyStr.contains "Video unavailable" msg). }
  split; [exact Hfirst|]. split; [|split; [|split]].
  - intros msg -> Hp Hu Hn. subst r.
    erewrite get_video_info_of_extract_raise; [reflexivity|].
    rewrite (extract_valid _ _ Hv), He. cbn. by rewrite Hu, Hn, Hp.
  - intros msg Hmsg Hc. apply (Hfirst msg Hmsg). right.
    by apply (contains_part "This video is " "not available" EmptyString).
  - intros msg -> Hu Hn Hp. subst r.
    erewrite get_video_info_of_extract_raise; [reflexivity|].
    rewrite (extract_valid _ _ Hv), He. cbn. rewrite Hu, Hn, Hp. cbn.
    destruct (PyStr.contains "This video is not available" msg) eqn:Ht; [|reflexivity].
    apply (contains_part "This video is " "not available" EmptyString) in Ht. congruence.
  - intros Hne. subst r.
    erewrite get_video_info_of_extract_raise; [reflexivity|].
    rewrite (extract_valid _ _ Hv), He.
    destruct e as [msg|c d|msg]; [by destruct (Hne msg)|reflexivity..].
Qed.

End GetVideoInfo.

(** ** The sort of the formats *)

Section Sort.
Implicit Types (x y : VideoFormat) (l : list VideoFormat).

Lemma insert_desc_perm x l : insert_desc x l ≡ₚ x :: l.
Proof.
  induction l as [|y l IH]; cbn; [done|].
  destruct (quality_key x <? quality_key y); [|done].
  rewrite IH. apply Permutation_swap.
Qed.

Lemma sort_formats_perm l : sort_formats l ≡ₚ l.
Proof.
  induction l as [|x l IH]; cbn; [done|].
  rewrite insert_desc_perm. by f_equiv.
Qed.






End Sort.

(** ** The loop over the formats *)

Section Loop.
Context `{Python} `{Pydantic}.
Implicit Types (w : world) (d : pydict) (acc : list VideoFormat).

Lemma new_VideoFormat_pure a b c e f w :
  (new_VideoFormat a b c e f w).2 = w.
Proof.
  unfold new_VideoFormat.
  by destruct (validate_str a), (validate_str b), (validate_str c),
    (validate_opt_int e), (validate_opt_str f).
Qed.

Lemma format_entry_pure d w : (format_entry d w).2 = w.
Proof.
  unfold format_entry, bind, dict_item.
  destruct (d !! "format_id") as [v|]; cbn; [|done].
  apply new_VideoFormat_pure.
Qed.

(** The label, by the height of the entry: an int height gives its digits
    and [p]; with no height key the label is the format note, or "Unknown"
    with no note either; a height that is present and None gives "Nonep". *)
Lemma quality_str_int d h :
  d !! "height" = Some (PInt h) → quality_str d = PStr (pretty h +:+ "p").
Proof. unfold quality_str, dict_get. by intros ->. Qed.

Lemma quality_str_note d v :
  d !! "height" = None → d !! "format_note" = Some v → quality_str d = v.
Proof. unfold quality_str, dict_get. by intros -> ->. Qed.

Lemma quality_str_unknown d :
  d !! "height" = None → d !! "format_note" = None → quality_str d = PStr "Unknown".
Proof. unfold quality_str, dict_get. by intros -> ->. Qed.

Lemma quality_str_null d :
  d !! "height" = Some PNone → quality_str d = PStr "Nonep".
Proof. unfold quality_str, dict_get. by intros ->. Qed.

(** The label of a built entry is the label the code computed, when that
    is a str. *)
Lemma format_entry_quality d w f w' s :
  format_entry d w = (Ok f, w') → quality_str d = PStr s → quality f = s.
Proof.
  unfold format_entry, bind, dict_item.
  destruct (d !! "format_id") as [v|]; cbn; [|discriminate].
  unfold new_VideoFormat. intros Hf Hq. rewrite Hq, validate_str_str in Hf.
  repeat match type of Hf with
         | context [match ?x with _ => _ end] => destruct x
         end; try discriminate.
  by injection Hf as <- _.
Qed.

(** A loop that ends well ran over dicts only, left the world alone, and
    appended an entry for each dict that passed the test, and for no other. *)
Lemma for_formats_Ok items : ∀ acc w fmts w',
  for_formats acc items w = (Ok fmts, w') →
  w' = w ∧
  ∃ ds new, items = PDict <$> ds ∧ fmts = acc ++ new ∧
    Forall2 (fun d f => format_entry d w = (Ok f, w)) (List.filter video_with_audio ds) new.
Proof.
  induction items as [|fmt items IH]; intros acc w fmts w'; cbn.
  - intros [= <- <-]. split; [done|]. exists [], []. by rewrite app_nil_r.
  - unfold bind. destruct fmt as [| | | | |d]; cbn; try discriminate.
    destruct (video_with_audio d) eqn:Hk; cbn.
    + unfold bind. pose proof (format_entry_pure d w) as Hp.
      destruct (format_entry d w) as [[f|e] w1] eqn:Hf; cbn in *; [|discriminate].
      subst w1. intros (-> & ds & new & -> & -> & Hall)%IH. split; [done|].
      exists (d :: ds), (f :: new). cbn. rewrite Hk.
      split; [done|]. split; [by rewrite <- app_assoc|]. by constructor.
    + intros (-> & ds & new & -> & -> & Hall)%IH. split; [done|].
      exists (d :: ds), new. cbn. by rewrite Hk.
Qed.

End Loop.

(** ** A response of get_video_info *)

Section Response.
Context `{Python} `{YoutubeDL} `{Pydantic}.
Implicit Types (request : VideoInfoRequest) (w : world).

Lemma get_video_info_Ok request w vi w' :
  get_video_info request w = (Ok vi, w') →
  ∃ info fmts,
    is_valid_youtube_url (request_url request) = true ∧
    ydl_extract_info (request_url request) = Ok (Some info) ∧
    w' = called (request_url request) w ∧
    collected info fmts w' ∧
    formats vi = sort_formats fmts ∧
    url vi = request_url request.
Proof.
  unfold get_video_info, try_except.
  destruct (get_video_info_body request w) as [[vi0|e] w0] eqn:Hb.
  2:{ destruct e; cbn; discriminate. }
  intros [= <- <-]. revert Hb. unfold get_video_info_body. unfold bind at 1.
  destruct (extract_video_info (request_url request) w) as [[info|e] w1] eqn:He; [|discriminate].
  apply extract_Ok in He as (Hv & Hi & ->). unfold bind at 1.
  set (w1 := called (request_url request) w).
  assert ((∃ fmts, collected info fmts w1 ∧
            match info !! "formats" with
            | Some v => let* items := iterate v in for_formats [] items
            | None => ret []
            end w1 = (Ok fmts, w1)) ∨
          (∃ e w2, match info !! "formats" with
            | Some v => let* items := iterate v in for_formats [] items
            | None => ret []
            end w1 = (Raise e, w2))) as [(fmts & Hc & ->)|(e & w2 & ->)]; [| |discriminate].
  { unfold collected. destruct (info !! "formats") as [v|]; [|left; by exists []].
    destruct ((let* items := iterate v in for_formats [] items) w1) as [[fmts|e] w2] eqn:Hl;
      [left; exists fmts|right; eauto].
    enough (w2 = w1) by (subst; done).
    unfold bind in Hl. destruct v; cbn in Hl; try discriminate;
      by destruct (for_formats_Ok _ _ _ _ _ Hl) as [-> _]. }
  unfold new_VideoInfo. rewrite validate_str_str.
  repeat match goal with
         | |- context [match ?x with _ => _ end] => destruct x
         end; cbn; try discriminate.
  intros [= <- <-]. exists info, fmts. done.
Qed.

(** C9: the [url] of a response is the [url] of its request. *)
Theorem response_url_is_request_url request w vi w' :
  get_video_info request w = (Ok vi, w') → url vi = request_url request.
Proof. intros (info & fmts & _ & _ & _ & _ & _ & Hu)%get_video_info_Ok. exact Hu. Qed.

(** C2, as the code has it: of a list of formats, the response holds an
    entry for each dict that passes [video_with_audio] (neither codec is the
    str "none"; an absent or empty codec passes), and no other entry. *)
Theorem kept_formats request w vi w' info items :
  get_video_info request w = (Ok vi, w') →
  ydl_extract_info (request_url request) = Ok (Some info) →
  info !! "formats" = Some (PList items) →
  ∃ ds fmts,
    items = PDict <$> ds ∧
    Forall2 (fun d f => format_entry d w' = (Ok f, w')) (List.filter video_with_audio ds) fmts ∧
    formats vi = sort_formats fmts ∧ formats vi ≡ₚ fmts.
Proof.
  intros (info' & fmts & _ & Hi & -> & Hc & Hf & _)%get_video_info_Ok Hinfo Hitems.
  rewrite Hinfo in Hi. injection Hi as <-.
  unfold collected in Hc. rewrite Hitems in Hc. cbn in Hc.
  apply for_formats_Ok in Hc as (_ & ds & new & -> & -> & Hall).
  exists ds, new. rewrite Hf. split; [done|]. split; [done|].
  split; [done|apply sort_formats_perm].
Qed.

End Response.

(** ** Paths and files *)

Section Paths.
Implicit Types (p d n : string) (a : ascii).

Lemma lines_from_concat cur content :
  concat (Os.lines_from cur content) = cur ++ content.
Proof.
  revert cur. induction content as [|b rest IH]; intros cur; cbn.
  - destruct cur; cbn; by rewrite ?app_nil_r.
  - destruct (Byte.eqb b x0a); cbn; rewrite IH; by rewrite <- ?app_assoc.
Qed.

(** The lines of a file, put end to end, are the file. *)
Lemma file_lines_concat content : concat (Os.file_lines content) = content.
Proof. apply lines_from_concat. Qed.

Lemma startswith_sep a n : PyStr.startswith "/" (String a n) = Os.is_sep a.
Proof.
  unfold PyStr.startswith, Os.is_sep. cbn [PyStr.strip_prefix].
  rewrite (Ascii.eqb_sym "/" a). by destruct (Ascii.eqb a "/").
Qed.

Lemma no_sep_rsplit n : PyStr.contains "/" n = false → Os.rsplit_sep n = None.
Proof.
  induction n as [|a n IH]; [done|]. cbn [PyStr.contains Os.rsplit_sep].
  rewrite startswith_sep. destruct (Os.is_sep a); [discriminate|].
  intros Hn. by rewrite (IH Hn).
Qed.

Lemma no_sep_startswith n : PyStr.contains "/" n = false → PyStr.startswith "/" n = false.
Proof.
  destruct n as [|a n]; [done|]. cbn [PyStr.contains].
  by destruct (PyStr.startswith "/" (String a n)).
Qed.

Lemma rsplit_sep_app h n :
  Os.rsplit_sep n = None → Os.rsplit_sep (h +:+ "/" +:+ n) = Some (h, n).
Proof.
  intros Hn. induction h as [|a h IH].
  - rewrite app_empty_l, app_cons, app_empty_l. cbn. by rewrite Hn.
  - rewrite app_cons. cbn. by rewrite IH.
Qed.

Lemma ends_with_sep_split d : Os.ends_with_sep d = true → ∃ h, d = h +:+ "/".
Proof.
  unfold Os.ends_with_sep. intros E.
  assert (∀ l, match reverse l with b :: _ => Os.is_sep b | [] => false end = true →
               ∃ h, String.string_of_list_ascii l = h +:+ "/") as Hl.
  { intros l. destruct l as [|b l _] using rev_ind; [done|].
    rewrite reverse_snoc. unfold Os.is_sep. intros ->%Ascii.eqb_eq.
    exists (String.string_of_list_ascii l).
    induction l as [|c l IH]; [done|]. cbn. rewrite app_cons. by f_equal. }
  destruct (Hl _ E) as [h Hh]. exists h.
  by rewrite <- Hh, String.string_of_list_ascii_of_string.
Qed.

(** The name of a file of a directory is the basename of its joined path. *)
Lemma basename_join d n :
  PyStr.contains "/" n = false → Os.path_basename (Os.path_join d n) = n.
Proof.
  intros Hn. unfold Os.path_join, Os.path_basename.
  rewrite (no_sep_startswith _ Hn).
  destruct (String.eqb_spec d "") as [->|_]; cbn [orb].
  - rewrite app_empty_l. by rewrite (no_sep_rsplit _ Hn).
  - destruct (Os.ends_with_sep d) eqn:E.
    + apply ends_with_sep_split in E as [h ->]. rewrite app_assoc_str.
      by rewrite (rsplit_sep_app _ _ (no_sep_rsplit _ Hn)).
    + by rewrite (rsplit_sep_app _ _ (no_sep_rsplit _ Hn)).
Qed.

End Paths.

(** ** download_video_endpoint *)

Section Download.
Context `{Python} `{YoutubeDL} `{Tempfile}.
Implicit Types (request : DownloadRequest) (w : world).

(** The body up to the listing of the directory, when the library returns. *)
Lemma download_body_listing request w temp_dir f' :
  mkdtemp_path (fs w) = Ok temp_dir →
  ydl_download (download_format_id request) (outtmpl temp_dir) (download_url request)
               (<[temp_dir := []]> (fs w)) = (Ok (), f') →
  download_body request w =
    match f' !! temp_dir with
    | Some dir =>
        match dir.*1 with
        | [] => (Raise (HTTPException 500 "Download failed - no file created"),
                 downloaded request w temp_dir f')
        | first :: _ =>
            match Os.read_file f' (Os.path_join temp_dir first) with
            | Some content =>
                (Ok {| body_path := Os.path_join temp_dir first;
                       media_type := "application/octet-stream";
                       headers := download_headers
                                    (Os.path_basename (Os.path_join temp_dir first))
                                    (Z.of_nat (length content)) |},
                 downloaded request w temp_dir f')
            | None => (Raise (Os.no_such_file (Os.path_join temp_dir first)),
                       downloaded request w temp_dir f')
            end
        end
    | None => (Raise (Os.no_such_file temp_dir), downloaded request w temp_dir f')
    end.
Proof.
  intros Hd Hl. unfold download_body, bind at 1, mkdtemp. rewrite Hd.
  unfold bind at 1, download_video, try_except, bind at 1, call_download. cbn [fs calls].
  fold (outtmpl temp_dir). rewrite Hl. cbn [ret].
  unfold bind at 1, Os.listdir. cbn [fs].
  destruct (f' !! temp_dir) as [dir|]; [|reflexivity].
  destruct (dir.*1) as [|first rest]; [reflexivity|].
  unfold bind, Os.path_getsize. cbn [fs].
  by destruct (Os.read_file f' (Os.path_join temp_dir first)).
Qed.

(** C7: the library returned and the new directory is empty: status 500. *)
Theorem no_file_is_server_error request w temp_dir f' :
  mkdtemp_path (fs w) = Ok temp_dir →
  ydl_download (download_format_id request) (outtmpl temp_dir) (download_url request)
               (<[temp_dir := []]> (fs w)) = (Ok (), f') →
  f' !! temp_dir = Some [] →
  (download_video_endpoint request w).1 =
    Raise (HTTPException 500 "Download failed - no file created").
Proof.
  intros Hd Hl Hempty. unfold download_video_endpoint, try_except.
  rewrite (download_body_listing _ _ _ _ Hd Hl), Hempty. reflexivity.
Qed.

Lemma download_handler_raises {A} e w :
  ∃ c d, @download_handler _ A e w = (Raise (HTTPException c d), w).
Proof. destruct e; cbn; eauto. Qed.

(** What a response of the endpoint was made from. *)
Lemma download_Ok request w resp w' :
  download_video_endpoint request w = (Ok resp, w') →
  ∃ temp_dir dir name content,
    fs w' !! temp_dir = Some dir ∧ head (dir.*1) = Some name ∧
    Os.read_file (fs w') (Os.path_join temp_dir name) = Some content ∧
    resp = {| body_path := Os.path_join temp_dir name;
              media_type := "application/octet-stream";
              headers := download_headers (Os.path_basename (Os.path_join temp_dir name))
                                          (Z.of_nat (length content)) |}.
Proof.
  unfold download_video_endpoint, try_except.
  destruct (download_body request w) as [[resp0|e] w0] eqn:Hb.
  2:{ destruct (download_handler_raises (A:=StreamingResponse) e w0) as (c & d & ->). discriminate. }
  intros [= <- <-]. revert Hb.
  destruct (mkdtemp_path (fs w)) as [temp_dir|e] eqn:Hd.
  2:{ unfold download_body, bind at 1, mkdtemp. rewrite Hd. discriminate. }
  destruct (ydl_download (download_format_id request) (outtmpl temp_dir) (download_url request)
              (<[temp_dir := []]> (fs w))) as [[[]|e] f'] eqn:Hl.
  2:{ unfold download_body, bind at 1, mkdtemp. rewrite Hd.
      unfold bind at 1, download_video, try_except, bind at 1, call_download. cbn [fs calls].
      fold (outtmpl temp_dir). rewrite Hl. discriminate. }
  rewrite (download_body_listing _ _ _ _ Hd Hl).
  destruct (f' !! temp_dir) as [dir|] eqn:Hdir; [|discriminate].
  destruct (dir.*1) as [|name rest] eqn:Hnames; [discriminate|].
  destruct (Os.read_file f' (Os.path_join temp_dir name)) as [content|] eqn:Hr; [|discriminate].
  intros [= <- <-]. exists temp_dir, dir, name, content. cbn [fs]. rewrite Hnames. done.
Qed.

(** C8: the response is made from the first file listed in the request's
    directory: its Content-Length is the number of bytes of that file, which
    is what [iterfile] yields, and its Content-Disposition is an attachment
    named by the basename of the file's path, the file's own name. *)
Theorem download_headers_match_file request w resp w' :
  download_video_endpoint request w = (Ok resp, w') →
  ∃ temp_dir name content chunks,
    (∃ dir, fs w' !! temp_dir = Some dir ∧ head (dir.*1) = Some name) ∧
    body_path resp = Os.path_join temp_dir name ∧
    Os.read_file (fs w') (body_path resp) = Some content ∧
    iterfile (body_path resp) w' = (Ok chunks, w') ∧
    concat chunks = content ∧
    headers resp =
      [ ("Content-Disposition",
         "attachment; filename=" +:+ PyStr.dquote
           +:+ Os.path_basename (body_path resp) +:+ PyStr.dquote);
        ("Content-Length", pretty (Z.of_nat (length (concat chunks)))) ] ∧
    (PyStr.contains "/" name = false → Os.path_basename (body_path resp) = name).
Proof.
  intros (temp_dir & dir & name & content & Hdir & Hname & Hread & ->)%download_Ok.
  exists temp_dir, name, content, (Os.file_lines content). cbn [body_path headers].
  split; [eauto|]. split; [done|]. split; [done|]. split.
  { unfold iterfile. by rewrite Hread. }
  rewrite file_lines_concat. split; [done|]. split; [done|]. apply basename_join.
Qed.

End Download.

(** ** Runs of the handlers *)

Module Runs.
Import Sample.

Definition example_request : VideoInfoRequest :=
  {| request_url := "https://www.example.com" |}.

Lemma invalid_url_rejected_example :
  is_valid_youtube_url (request_url example_request) = false ∧
  ∃ c, status (get_info (Ok None) example_request).1 = Some c ∧ 400 ≤ c ∧ c < 500 ∧
       calls (get_info (Ok None) example_request).2 = calls start.
Proof.
  split; [vm_compute; reflexivity|].
  apply (@invalid_url_rejected python (library (Ok None) []) pydantic example_request start).
  vm_compute; reflexivity.
Defined.

Lemma empty_result_example :
  (get_info (Ok None) rick).1 =
    Raise (HTTPException 500 "Unexpected error: 404: Video not found or unavailable").
Proof.
  apply (@empty_result_status python (library (Ok None) []) pydantic rick start None);
    vm_compute; reflexivity.
Defined.

Lemma private_video_example :
  status (get_info (Raise (DownloadError private_message)) rick).1 = Some 403.
Proof.
  apply (proj1 (proj2 (@library_error_status python
           (library (Raise (DownloadError private_message)) []) pydantic rick start
           (DownloadError private_message) eq_refl eq_refl)) private_message eq_refl);
    vm_compute; reflexivity.
Defined.

(** C5 as stated fails: a message that holds "Private video" and also
    "Video unavailable" gets 404, not 403. *)
Lemma private_and_unavailable :
  PyStr.contains "Private video" private_unavailable_message = true ∧
  status (get_info (Raise (DownloadError private_unavailable_message)) rick).1 = Some 404.
Proof. split; vm_compute; reflexivity. Qed.

Lemma response_url_example :
  ∃ vi w', get_info (Ok (info_with [combined "22" 720])) rick = (Ok vi, w') ∧
           url vi = request_url rick.
Proof.
  eexists _, _. split; [vm_compute; reflexivity|].
  eapply (@response_url_is_request_url python (library (Ok (info_with [combined "22" 720])) [])
            pydantic rick start).
  vm_compute; reflexivity.
Defined.

(** C2 as stated fails: an entry with no video codec at all is kept. *)
Lemma keeps_entry_without_vcodec :
  ∃ d vi w',
    no_vcodec = PDict d ∧ d !! "vcodec" = None ∧ spec_video_with_audio d = false ∧
    get_info (Ok (info_with [no_vcodec; video_only])) rick = (Ok vi, w') ∧
    format_id <$> formats vi = ["140"].
Proof. eexists _, _, _. repeat split; vm_compute; reflexivity. Qed.

Lemma kept_formats_example :
  ∃ ds fmts vi w',
    sample_items = PDict <$> ds ∧
    get_info (Ok (Some (info_dict sample_items))) rick = (Ok vi, w') ∧
    Forall2 (fun d f => @format_entry python pydantic d w' = (Ok f, w'))
            (List.filter video_with_audio ds) fmts ∧
    formats vi = sort_formats fmts ∧ formats vi ≡ₚ fmts.
Proof.
  assert (∃ vi w', get_info (Ok (Some (info_dict sample_items))) rick = (Ok vi, w'))
    as (vi & w' & Hrun) by (eexists _, _; vm_compute; reflexivity).
  assert (info_dict sample_items !! "formats" = Some (PList sample_items)) as Hitems
    by (vm_compute; reflexivity).
  destruct (@kept_formats python (library (Ok (Some (info_dict sample_items))) []) pydantic
              rick start vi w' (info_dict sample_items) sample_items Hrun eq_refl Hitems)
    as (ds & fmts & Hds & Hall & Hs & Hp).
  exists ds, fmts, vi, w'. exact (conj Hds (conj Hrun (conj Hall (conj Hs Hp)))).
Defined.

(** C3: the entry has a format note and a height that is present and None;
    the label is "Nonep", not the note. *)
Theorem null_height_label :
  ∃ vi w',
    get_info (Ok (info_with [null_height])) rick = (Ok vi, w') ∧
    (fun f => (quality f, format_note f)) <$> formats vi = [("Nonep", Some "medium")].
Proof. eexists _, _. split; vm_compute; reflexivity. Qed.

Lemma no_file_example :
  (download []).1 = Raise (HTTPException 500 "Download failed - no file created").
Proof.
  eapply (@no_file_is_server_error python (library (Ok None) []) tempfile download_request start);
    vm_compute; reflexivity.
Defined.

Lemma download_example :
  ∃ resp w', download [("Never Gonna Give You Up.mp4", clip)] = (Ok resp, w') ∧
    headers resp =
      [ ("Content-Disposition",
         "attachment; filename=" +:+ PyStr.dquote +:+ "Never Gonna Give You Up.mp4"
           +:+ PyStr.dquote);
        ("Content-Length", "8") ] ∧
    ∃ chunks, @iterfile python (body_path resp) w' = (Ok chunks, w') ∧
              length (concat chunks) = 8%nat.
Proof.
  eexists _, _. split; [vm_compute; reflexivity|].
  edestruct (@download_headers_match_file python
               (library (Ok None) [("Never Gonna Give You Up.mp4", clip)]) tempfile
               download_request start)
    as (temp_dir & name & content & chunks & _ & _ & _ & Hiter & _ & _ & _).
  { vm_compute. reflexivity. }
  split; [vm_compute; reflexivity|].
  eexists. split; vm_compute; reflexivity.
Defined.

End Runs.

(** ** The shape of the accepted URLs *)

Section MatcherInversion.
Implicit Types (r : Re.regex) (s x : string) (res : string → list string).

Lemma in_chr c x s : x ∈ Re.residuals (Re.Chr c) s ↔ s = String c x.
Proof.
  cbn. destruct s as [|a s]; [rewrite elem_of_nil; split; [done|discriminate]|].
  destruct (Ascii.eqb_spec a c) as [->|Hne].
  - rewrite list_elem_of_singleton. split; [by intros ->|by intros [= ->]].
  - rewrite elem_of_nil. split; [done|]. intros [= -> _]. done.
Qed.

Lemma in_str p x s : x ∈ Re.residuals (Re.Str p) s ↔ s = p +:+ x.
Proof.
  cbn. destruct (PyStr.strip_prefix p s) as [y|] eqn:E.
  - apply strip_prefix_Some in E as ->. rewrite list_elem_of_singleton.
    split; [by intros ->|]. intros Heq.
    assert (PyStr.strip_prefix p (p +:+ y) = Some x) as E by by apply strip_prefix_Some.
    rewrite strip_prefix_app in E. congruence.
  - rewrite elem_of_nil. split; [done|]. intros ->. by rewrite strip_prefix_app in E.
Qed.

Lemma in_cat r1 r2 x s :
  x ∈ Re.residuals (r1 ~> r2) s ↔ ∃ y, y ∈ Re.residuals r1 s ∧ x ∈ Re.residuals r2 y.
Proof. cbn. rewrite list_elem_of_bind. split; intros (y & ? & ?); eauto. Qed.

Lemma in_alt r1 r2 x s :
  x ∈ Re.residuals (r1 <|> r2) s ↔ x ∈ Re.residuals r1 s ∨ x ∈ Re.residuals r2 s.
Proof. cbn. apply elem_of_app. Qed.

Lemma in_opt r1 x s : x ∈ Re.residuals (Re.Opt r1) s ↔ x ∈ Re.residuals r1 s ∨ x = s.
Proof. cbn. by rewrite elem_of_app, list_elem_of_singleton. Qed.

(** A match of [r] takes at least [min_len r] characters of the text. *)
Lemma plus_more_length res k n : 
  (∀ s x, x ∈ res s → (String.length x + k ≤ String.length s)%nat) →
  ∀ s x, x ∈ Re.plus_more res n s → (String.length x + k ≤ String.length s)%nat.
Proof.
  intros Hres. induction n as [|n IH]; intros s x; cbn; [by intros ?%elem_of_nil|].
  rewrite list_elem_of_bind. intros (y & Hx & Hy%Hres).
  apply elem_of_app in Hx as [Hx%IH|Hx%list_elem_of_singleton]; subst; lia.
Qed.

Lemma times_rep_length res k n :
  (∀ s x, x ∈ res s → (String.length x + k ≤ String.length s)%nat) →
  ∀ s x, x ∈ Re.times_rep res n s → (String.length x + n * k ≤ String.length s)%nat.
Proof.
  intros Hres. induction n as [|n IH]; intros s x; cbn.
  - intros Hx%list_elem_of_singleton. subst. lia.
  - rewrite list_elem_of_bind. intros (y & Hx%IH & Hy%Hres). lia.
Qed.

Lemma residuals_length r : ∀ s x,
  x ∈ Re.residuals r s → (String.length x + min_len r ≤ String.length s)%nat.
Proof.
  induction r as [c|p| |cs|r1 IH1 r2 IH2|r1 IH1 r2 IH2|r1 IH1|r1 IH1|n r1 IH1]; intros s x.
  - intros ->%in_chr. cbn. lia.
  - intros ->%in_str. rewrite length_app_str. cbn. lia.
  - cbn. destruct s as [|a s]; [by intros ?%elem_of_nil|].
    destruct (Ascii.eqb a Re.newline); [by intros ?%elem_of_nil|].
    intros ->%list_elem_of_singleton. cbn. lia.
  - cbn. destruct s as [|a s]; [by intros ?%elem_of_nil|].
    destruct (existsb _ cs); [by intros ?%elem_of_nil|].
    intros ->%list_elem_of_singleton. cbn. lia.
  - intros (y & Hy%IH1 & Hx%IH2)%in_cat. cbn. lia.
  - intros [Hx%IH1|Hx%IH2]%in_alt; cbn; lia.
  - intros [Hx%IH1|Hx]%in_opt; subst; cbn; lia.
  - cbn [Re.residuals min_len]. by apply plus_more_length.
  - cbn [Re.residuals min_len]. by apply times_rep_length.
Qed.

End MatcherInversion.

Section ValidatorShape.
Implicit Types (u d t ident : string).

Ltac invert_match H :=
  lazymatch type of H with
  | _ ∈ Re.residuals (Re.Cat _ _) _ =>
      let y := fresh "y" in
      let H1 := fresh "H" in
      apply in_cat in H as (y & H1 & H); invert_match H1; invert_match H
  | _ ∈ Re.residuals (Re.Alt _ _) _ => apply in_alt in H as [H|H]; invert_match H
  | _ ∈ Re.residuals (Re.Opt _) _ => apply in_opt in H as [H|H]; [invert_match H|subst]
  | _ ∈ Re.residuals (Re.Str _) _ => apply in_str in H; subst
  | _ ∈ Re.residuals (Re.Chr _) _ => apply in_chr in H; subst
  | _ => idtac
  end.

(** What the domain part of the pattern takes off a text is one of the host
    prefixes. *)
Lemma domain_regex_inv y u :
  y ∈ Re.residuals domain_regex u → ∃ d, d ∈ host_prefixes ∧ u = d +:+ y.
Proof.
  intros H. apply Exists_exists. unfold domain_regex in H. invert_match H;
    vm_compute; repeat (first [by apply Exists_cons_hd | apply Exists_cons_tl]).
Qed.

(** The domain variants are the host prefixes. *)
Lemma domain_variant_host_prefix d : domain_variant d ↔ d ∈ host_prefixes.
Proof.
  split.
  - intros (d' & Hd & ->)%domain_regex_inv. by rewrite app_empty_r.
  - revert d. apply Forall_forall. unfold domain_variant.
    vm_compute. repeat constructor.
Qed.

(** X1: the validator looks at the start of the text only: what follows an
    accepted URL does not matter. *)
Theorem validator_ignores_tail u t :
  is_valid_youtube_url u = true → is_valid_youtube_url (u +:+ t) = true.
Proof.
  unfold is_valid_youtube_url, Re.matches.
  destruct (Re.residuals youtube_regex u) as [|x l] eqn:E; [discriminate|]. intros _.
  assert (x ∈ Re.residuals youtube_regex u) as Hx by (rewrite E; left).
  apply (residuals_extends _ _ _ t) in Hx.
  by destruct (Re.residuals youtube_regex (u +:+ t)); [apply elem_of_nil in Hx|].
Qed.

(** X2: an accepted URL starts with a host prefix and a slash, and at least
    eleven characters follow. *)
Theorem validator_accepts_only_hosts u :
  is_valid_youtube_url u = true →
  ∃ d rest, d ∈ host_prefixes ∧ u = d +:+ "/" +:+ rest ∧ (11 ≤ String.length rest)%nat.
Proof.
  unfold is_valid_youtube_url, Re.matches.
  destruct (Re.residuals youtube_regex u) as [|x l] eqn:E; [discriminate|]. intros _.
  assert (x ∈ Re.residuals youtube_regex u) as Hx by (rewrite E; left).
  unfold youtube_regex in Hx.
  apply in_cat in Hx as (y & (d & Hd & ->)%domain_regex_inv & Hx).
  apply in_cat in Hx as (rest & ->%in_chr & Hx).
  apply residuals_length in Hx. cbn in Hx.
  exists d, rest. split; [done|]. split; [done|lia].
Qed.

Lemma residuals_plus_dot p t : dot_text p → t ∈ Re.residuals (Re.Plus Re.Dot) (p +:+ t).
Proof.
  intros [Hne Hall]. cbn [Re.residuals].
  assert (String.length p ≤ S (String.length (p +:+ t)))%nat as Hfuel
    by (rewrite length_app_str; lia).
  revert Hfuel. generalize (S (String.length (p +:+ t))). intros n. revert n Hne Hall.
  induction p as [|a p IH]; intros n Hne Hall Hn; [done|].
  destruct n as [|n]; [cbn in Hn; lia|].
  inversion Hall as [|? ? Ha Hp]; subst. rewrite app_cons.
  cbn [Re.plus_more Re.residuals].
  destruct (Ascii.eqb_spec a Re.newline) as [->|_]; [done|].
  rewrite bind_singleton. apply elem_of_app.
  destruct p as [|b p]; [right; by apply list_elem_of_singleton|].
  left. apply IH; [done|done|cbn in *; lia].
Qed.

(** X3: the URL shapes with a path marker are accepted: a host prefix, a slash, a literal
    marker or any text followed by [?v=], and eleven identifier characters;
    anything may follow. *)
Theorem validator_accepts_markers d ident t :
  d ∈ host_prefixes → String.length ident = 11%nat → id_string ident →
  (∀ m, m ∈ literal_markers →
     is_valid_youtube_url (d +:+ "/" +:+ m +:+ ident +:+ t) = true) ∧
  (∀ p, dot_text p →
     is_valid_youtube_url (d +:+ "/" +:+ p +:+ "?v=" +:+ ident +:+ t) = true).
Proof.
  intros Hd%domain_variant_host_prefix Hlen Hid.
  assert (∀ tail, ident +:+ t ∈ Re.residuals (Re.Opt marker_regex) tail →
            is_valid_youtube_url (d +:+ "/" +:+ tail) = true) as Hstart.
  { intros tail Htail. unfold is_valid_youtube_url, youtube_regex.
    apply (matches_true _ _ t). eapply residuals_cat.
    { apply (residuals_extends _ _ _ ("/" +:+ tail)) in Hd. exact Hd. }
    rewrite app_empty_l. eapply residuals_cat; [by apply in_chr|].
    eapply residuals_cat; [exact Htail|]. by apply residuals_times_noneof. }
  split.
  - intros m Hm. apply Hstart, in_opt. left. unfold marker_regex, literal_markers in *.
    rewrite !in_alt, !in_str. rewrite !elem_of_cons in Hm.
    destruct Hm as [->|[->|[->|[]%elem_of_nil]]]; eauto.
  - intros p Hp. apply Hstart, in_opt. left. unfold marker_regex.
    rewrite !in_alt. right. right. right. apply in_cat.
    exists ("?v=" +:+ ident +:+ t). split; [by apply residuals_plus_dot|by apply in_str].
Qed.

End ValidatorShape.

(** ** Failures of the loop *)

Section LoopFailures.
Context `{Python} `{Pydantic}.
Implicit Types (w : world) (d : pydict) (acc : list VideoFormat).

Lemma new_VideoFormat_raise a b c e f w ex w' :
  new_VideoFormat a b c e f w = (Raise ex, w') → ∃ msg, ex = PyError msg.
Proof.
  unfold new_VideoFormat. intros Hr.
  repeat match type of Hr with
         | context [match ?x with _ => _ end] => destruct x
         end; unfold raise, ret in Hr; simplify_eq; eauto.
Qed.

Lemma format_entry_raise d w ex w' :
  format_entry d w = (Raise ex, w') → ∃ msg, ex = PyError msg.
Proof.
  unfold format_entry, bind, dict_item.
  destruct (d !! "format_id") as [v|]; cbn; [apply new_VideoFormat_raise|].
  intros [= <- _]. eauto.
Qed.

Lemma loop_body_pure acc fmt w : (loop_body acc fmt w).2 = w.
Proof.
  destruct fmt as [| | | | |d]; cbn; try done.
  destruct (video_with_audio d); cbn; [|done]. unfold bind.
  pose proof (format_entry_pure d w) as Hp.
  by destruct (format_entry d w) as [[f|e] w1].
Qed.

Lemma loop_body_raise acc fmt w ex w' :
  loop_body acc fmt w = (Raise ex, w') → ∃ msg, ex = PyError msg.
Proof.
  destruct fmt as [| | | | |d]; cbn; try (intros [= <- _]; eauto; fail).
  destruct (video_with_audio d); cbn; [|discriminate]. unfold bind.
  destruct (format_entry d w) as [[f|e] w1] eqn:E; cbn; [discriminate|].
  intros [= <- _]. by apply format_entry_raise in E.
Qed.

(** The loop leaves the world alone, and fails with no HTTPException. *)
Lemma for_formats_pure items : ∀ acc w, (for_formats acc items w).2 = w.
Proof.
  induction items as [|fmt items IH]; intros acc w; cbn; [done|]. unfold bind.
  pose proof (loop_body_pure acc fmt w) as Hp.
  destruct (loop_body acc fmt w) as [[acc'|e] w1]; cbn in *; subst; [apply IH|done].
Qed.

Lemma for_formats_raise items : ∀ acc w ex w',
  for_formats acc items w = (Raise ex, w') → ∃ msg, ex = PyError msg.
Proof.
  induction items as [|fmt items IH]; intros acc w ex w'; cbn; [discriminate|]. unfold bind.
  destruct (loop_body acc fmt w) as [[acc'|e] w1] eqn:E; [apply IH|].
  intros [= <- _]. by apply loop_body_raise in E.
Qed.

(** A malformed element makes the loop fail. *)
Lemma for_formats_malformed items : ∀ acc w,
  Exists malformed items → ∃ msg, for_formats acc items w = (Raise (PyError msg), w).
Proof.
  induction items as [|fmt items IH]; intros acc w Hex; [by apply Exists_nil in Hex|].
  cbn. unfold bind. pose proof (loop_body_pure acc fmt w) as Hp.
  destruct (loop_body acc fmt w) as [[acc'|e] w1] eqn:E; cbn in Hp; subst w1.
  - apply Exists_cons in Hex as [Hbad|Hex]; [|by apply IH].
    exfalso. destruct fmt as [| | | | |d]; cbn in E; try discriminate.
    destruct Hbad as [Hk Hid]. rewrite Hk in E. cbn in E.
    unfold bind, format_entry, bind, dict_item in E. rewrite Hid in E. discriminate.
  - apply loop_body_raise in E as [msg ->]. eauto.
Qed.

Lemma iterate_pure v w : (iterate v w).2 = w.
Proof. by destruct v. Qed.

Lemma iterate_raise v w ex w' : iterate v w = (Raise ex, w') → ∃ msg, ex = PyError msg.
Proof. destruct v; cbn; try discriminate; intros [= <- _]; eauto. Qed.

Lemma new_VideoInfo_pure a b c e f l g w : (new_VideoInfo a b c e f l g w).2 = w.
Proof.
  unfold new_VideoInfo.
  repeat match goal with
         | |- context [match ?x with _ => _ end] => destruct x
         end; done.
Qed.

Lemma new_VideoInfo_raise a b c e f l g w ex w' :
  new_VideoInfo a b c e f l g w = (Raise ex, w') → ∃ msg, ex = PyError msg.
Proof.
  unfold new_VideoInfo. intros Hr.
  repeat match type of Hr with
         | context [match ?x with _ => _ end] => destruct x
         end; unfold raise, ret in Hr; simplify_eq; eauto.
Qed.

End LoopFailures.

(** ** The outcomes of get_video_info *)

Section InfoOutcomes.
Context `{Python} `{YoutubeDL} `{Pydantic}.
Implicit Types (request : VideoInfoRequest) (w : world) (info : pydict).

Lemma outcome_raise {A} (m : result A * world) ex : m.1 = Raise ex → m = (Raise ex, m.2).
Proof. destruct m. cbn. by intros ->. Qed.

(** The loop of the body, over the value of the [formats] key. *)
Lemma formats_loop_pure (v : pyval) w :
  ((let* items := iterate v in for_formats [] items) w).2 = w.
Proof.
  unfold bind. pose proof (iterate_pure v w) as Hp.
  destruct (iterate v w) as [[items|e] w1]; cbn in *; subst; [apply for_formats_pure|done].
Qed.

Lemma formats_loop_raise (v : pyval) w ex w' :
  (let* items := iterate v in for_formats [] items) w = (Raise ex, w') →
  ∃ msg, ex = PyError msg.
Proof.
  unfold bind. destruct (iterate v w) as [[items|e] w1] eqn:E.
  - apply for_formats_raise.
  - intros [= <- _]. by apply iterate_raise in E.
Qed.

(** After the library answered, the body changes nothing more, and fails
    with no HTTPException. *)
Lemma body_after_extract request w info w1 :
  extract_video_info (request_url request) w = (Ok info, w1) →
  (get_video_info_body request w).2 = w1 ∧
  ∀ ex, (get_video_info_body request w).1 = Raise ex → ∃ msg, ex = PyError msg.
Proof.
  intros He. destruct (get_video_info_body request w) as [r w2] eqn:Hb. cbn.
  revert Hb. unfold get_video_info_body. unfold bind at 1. rewrite He. unfold bind at 1.
  assert (∀ fmts,
    new_VideoInfo (dict_get info "title" (PStr "Unknown")) (dict_get info "duration" PNone)
      (dict_get info "thumbnail" PNone) (dict_get info "uploader" PNone)
      (dict_get info "view_count" PNone) (sort_formats fmts) (PStr (request_url request)) w1
    = (r, w2) → w2 = w1 ∧ ∀ ex, r = Raise ex → ∃ msg, ex = PyError msg) as Hnew.
  { intros fmts Hb. pose proof (f_equal snd Hb) as Hs. rewrite new_VideoInfo_pure in Hs.
    split; [done|]. intros ex ->. by eapply new_VideoInfo_raise. }
  destruct (info !! "formats") as [v|]; [|apply Hnew].
  pose proof (formats_loop_pure v w1) as Hp.
  destruct ((let* items := iterate v in for_formats [] items) w1) as [[fmts|e] w3] eqn:E;
    cbn in Hp; subst w3; [apply Hnew|].
  intros [= <- <-]. split; [done|]. intros ex [= <-]. by apply formats_loop_raise in E.
Qed.

(** The whole handler after the library answered: a response, or the 500 of
    the clause [except Exception]. *)
Lemma get_video_info_after_extract request w info w1 :
  extract_video_info (request_url request) w = (Ok info, w1) →
  (get_video_info request w).2 = w1 ∧
  ((∃ vi, (get_video_info request w).1 = Ok vi) ∨
   (∃ msg, (get_video_info request w).1 =
             Raise (HTTPException 500 ("Unexpected error: " +:+ msg)))).
Proof.
  intros [Hw Hex]%body_after_extract. unfold get_video_info, try_except.
  destruct (get_video_info_body request w) as [[vi|e] w2]; cbn in *; subst w2.
  - split; [done|]. left. eauto.
  - destruct (Hex e eq_refl) as [msg ->]. cbn. split; [done|]. right. eauto.
Qed.

Lemma extract_video_info_outcome u w :
  (∃ info, extract_video_info u w = (Ok info, called u w)) ∨
  (∃ c d, c ∈ [400; 403; 404; 500] ∧
     extract_video_info u w =
       (Raise (HTTPException c d), if is_valid_youtube_url u then called u w else w)).
Proof.
  destruct (is_valid_youtube_url u) eqn:Hv.
  2:{ right. exists 400, "Invalid YouTube URL format". rewrite (extract_invalid _ _ Hv).
      split; [by repeat constructor|done]. }
  rewrite (extract_valid _ _ Hv).
  destruct (ydl_extract_info u) as [[info|]|e].
  - destruct (falsy (Some info)); [|left; eauto].
    right. eexists 500, _. split; [by repeat constructor|reflexivity].
  - right. eexists 500, _. split; [by repeat constructor|reflexivity].
  - right. destruct e as [msg|c d|msg]; cbn;
      [|eexists 500, _; split; [by repeat constructor|reflexivity]..].
    repeat match goal with |- context [if ?b then _ else _] => destruct b end; cbn;
      eexists _, _; (split; [|reflexivity]); by repeat constructor.
Qed.

(** X4: every request to the info endpoint ends in a response or in an
    HTTPException of status 400, 403, 404 or 500: no other exception leaves
    the handler. *)
Theorem info_status_codes request w :
  ∃ c, status (get_video_info request w).1 = Some c ∧ c ∈ info_statuses.
Proof.
  unfold info_statuses.
  destruct (extract_video_info_outcome (request_url request) w)
    as [(info & He)|(c & d & Hc & He)].
  - destruct (get_video_info_after_extract _ _ _ _ He) as [_ [(vi & ->)|(msg & ->)]]; cbn.
    + exists 200. split; [done|by repeat constructor].
    + exists 500. split; [done|by repeat constructor].
  - rewrite (get_video_info_of_extract_raise _ _ _ _ _ He). cbn.
    exists c. split; [done|by right].
Qed.

(** X5: the info endpoint calls the library exactly once, with the URL of
    the request, when the validator accepts the URL, and not at all otherwise,
    whatever the library answers and however the request ends. *)
Theorem info_library_calls request w :
  calls (get_video_info request w).2 =
    calls w ++ (if is_valid_youtube_url (request_url request)
                then [ExtractInfo (request_url request)] else []).
Proof.
  destruct (extract_video_info_outcome (request_url request) w)
    as [(info & He)|(c & d & Hc & He)].
  - destruct (get_video_info_after_extract _ _ _ _ He) as [-> _].
    apply extract_Ok in He as (-> & _ & _). done.
  - rewrite (get_video_info_of_extract_raise _ _ _ _ _ He). cbn.
    destruct (is_valid_youtube_url (request_url request)); cbn; [done|].
    by rewrite app_nil_r.
Qed.


(** X7: one malformed element of the formats list (not a dict, or a dict
    that passes the test and has no [format_id]) fails the whole request with
    status 500; so does a [formats] value that is None, a bool or an int. *)
Theorem malformed_formats_fail request w info v :
  is_valid_youtube_url (request_url request) = true →
  ydl_extract_info (request_url request) = Ok (Some info) →
  falsy (Some info) = false →
  info !! "formats" = Some v →
  (match v with
   | PList items => Exists malformed items
   | PNone | PBool _ | PInt _ => True
   | _ => False
   end) →
  ∃ msg, (get_video_info request w).1 =
           Raise (HTTPException 500 ("Unexpected error: " +:+ msg)).
Proof.
  intros Hv Hinfo Hf Hfmts Hbad.
  assert (extract_video_info (request_url request) w =
            (Ok info, called (request_url request) w)) as He.
  { by rewrite (extract_valid _ _ Hv), Hinfo, Hf. }
  assert (∃ msg, (let* items := iterate v in for_formats [] items)
                   (called (request_url request) w)
                 = (Raise (PyError msg), called (request_url request) w)) as [msg Hloop].
  { unfold bind. destruct v as [| | | |items|]; cbn; try done; eauto.
    by apply for_formats_malformed. }
  exists msg. unfold get_video_info, try_except, get_video_info_body.
  unfold bind at 1. rewrite He. unfold bind at 1. rewrite Hfmts, Hloop. reflexivity.
Qed.


End InfoOutcomes.

(** ** Heights, labels and keys *)

Section Digits.
Implicit Types (s t : string) (a c : ascii) (x : N).

Lemma remove_char_app c s t :
  PyStr.remove_char c (s +:+ t) = PyStr.remove_char c s +:+ PyStr.remove_char c t.
Proof.
  induction s as [|a s IH]; [done|]. rewrite app_cons. cbn.
  destruct (Ascii.eqb a c); [done|]. by rewrite app_cons, IH.
Qed.

Lemma digit_not_p a : PyStr.is_digit_char a = true → Ascii.eqb a "p" = false.
Proof. destruct (Ascii.eqb_spec a "p") as [->|]; [|done]. vm_compute. done. Qed.

(** [replace('p', '')] leaves digits alone. *)
Lemma remove_p_digits s : PyStr.all_digits s = true → PyStr.remove_char "p" s = s.
Proof.
  induction s as [|a s IH]; [done|]. cbn. intros [Ha Hs]%andb_true_iff.
  by rewrite (digit_not_p _ Ha), IH.
Qed.

Lemma pretty_N_char_digit x :
  (x < 10)%N →
  PyStr.is_digit_char (pretty_N_char x) = true ∧
  Z.of_nat (nat_of_ascii (pretty_N_char x)) - 48 = Z.of_N x.
Proof.
  intros Hx. destruct x as [|p]; [by vm_compute|].
  do 4 (destruct p as [p|p|]; try (by vm_compute); try lia).
Qed.

(** The digits [pretty] writes in front of [s] are digits, and [int] reads
    them back. *)
Lemma pretty_N_go_digits x s :
  PyStr.all_digits (pretty_N_go x s) = PyStr.all_digits s.
Proof.
  revert s. induction (N.lt_wf_0 x) as [x _ IH]; intros s.
  assert (x = 0 ∨ 0 < x)%N as [->|Hpos] by lia; [by rewrite pretty_N_go_0|].
  rewrite pretty_N_go_step by done. rewrite IH by (by apply N.div_lt). cbn.
  destruct (pretty_N_char_digit (x `mod` 10)) as [-> _]; [by apply N.mod_lt|done].
Qed.

Lemma pretty_N_go_int x s :
  PyStr.int_acc 0 (pretty_N_go x s) = PyStr.int_acc (Z.of_N x) s.
Proof.
  revert s. induction (N.lt_wf_0 x) as [x _ IH]; intros s.
  assert (x = 0 ∨ 0 < x)%N as [->|Hpos] by lia; [by rewrite pretty_N_go_0|].
  rewrite pretty_N_go_step by done. rewrite IH by (by apply N.div_lt). cbn. f_equal.
  destruct (pretty_N_char_digit (x `mod` 10)) as [_ ->]; [by apply N.mod_lt|].
  rewrite (N.div_mod x 10) at 3 by done. lia.
Qed.

Lemma pretty_N_go_length x s : (String.length s ≤ String.length (pretty_N_go x s))%nat.
Proof.
  revert s. induction (N.lt_wf_0 x) as [x _ IH]; intros s.
  assert (x = 0 ∨ 0 < x)%N as [->|Hpos] by lia; [by rewrite pretty_N_go_0|].
  rewrite pretty_N_go_step by done. etrans; [|apply IH; by apply N.div_lt]. cbn. lia.
Qed.

(** The decimal text of a natural number is a text of digits that [int]
    reads back. *)
Lemma pretty_N_isdigit x : PyStr.isdigit (pretty x) = true ∧ PyStr.int (pretty x) = Z.of_N x.
Proof.
  unfold pretty, pretty_N. destruct (decide (x = 0%N)) as [->|Hne]; [done|].
  assert (0 < x)%N as Hpos by lia. split.
  - unfold PyStr.isdigit. rewrite pretty_N_go_step by done.
    pose proof (pretty_N_go_length (x `div` 10) (String (pretty_N_char (x `mod` 10)) "")) as Hl.
    pose proof (pretty_N_go_digits (x `div` 10) (String (pretty_N_char (x `mod` 10)) "")) as Hd.
    destruct (pretty_N_go _ _); [cbn in Hl; lia|]. rewrite Hd. cbn.
    destruct (pretty_N_char_digit (x `mod` 10)) as [-> _]; [by apply N.mod_lt|done].
  - unfold PyStr.int. by rewrite pretty_N_go_int.
Qed.

Lemma pretty_Z_nonneg h : 0 ≤ h → (pretty h : string) = pretty (Z.to_N h).
Proof. destruct h as [|p|p]; [done|done|lia]. Qed.

(** The key of the label of a height: the height, or zero below zero. *)
Lemma height_key f h : quality f = pretty h +:+ "p" → quality_key f = Z.max 0 h.
Proof.
  unfold quality_key. intros ->. rewrite remove_char_app.
  change (PyStr.remove_char "p" "p") with EmptyString. rewrite app_empty_r.
  destruct (Z.le_gt_cases 0 h) as [Hh|Hh].
  - rewrite (pretty_Z_nonneg _ Hh). destruct (pretty_N_isdigit (Z.to_N h)) as [Hd Hi].
    assert (PyStr.all_digits (pretty (Z.to_N h)) = true) as Hall.
    { unfold PyStr.isdigit in Hd. by destruct (pretty (Z.to_N h)). }
    rewrite (remove_p_digits _ Hall), Hd, Hi. lia.
  - destruct h as [|p|p]; try lia. change (pretty (Z.neg p)) with ("-" +:+ pretty p).
    rewrite app_cons. cbn [PyStr.remove_char].
    change (Ascii.eqb "-" "p") with false. cbn [PyStr.isdigit PyStr.all_digits].
    change (PyStr.is_digit_char "-") with false. cbn [andb]. lia.
Qed.

End Digits.

Section HeightLabel.
Context `{Python} `{Pydantic}.

(** X9: a kept entry with an int height [h] gets the label of the digits of
    [h] and [p], and sorts by [h] (by zero when [h] is negative). *)
Theorem height_label_and_key (d : pydict) (w w' : world) (f : VideoFormat) (h : Z) :
  format_entry d w = (Ok f, w') →
  d !! "height" = Some (PInt h) →
  quality f = pretty h +:+ "p" ∧ quality_key f = Z.max 0 h.
Proof.
  intros Hf Hh.
  assert (quality f = pretty h +:+ "p") as Hq.
  { eapply format_entry_quality; [exact Hf|by apply quality_str_int]. }
  split; [done|by apply height_key].
Qed.

End HeightLabel.

(** ** The order of the formats of a response *)

Section SortedResponse.
Context `{Python} `{YoutubeDL} `{Pydantic}.
Implicit Types (request : VideoInfoRequest) (w : world).





End SortedResponse.

(** ** The outcomes of download_video_endpoint *)

Section DownloadOutcomes.
Context `{Python} `{YoutubeDL} `{Tempfile}.
Implicit Types (request : DownloadRequest) (w : world) (e : exn).

(** The body when [mkdtemp] raises: nothing else runs. *)
Lemma download_body_no_directory request w e :
  mkdtemp_path (fs w) = Raise e → download_body request w = (Raise e, w).
Proof. intros Hd. unfold download_body, bind at 1, mkdtemp. by rewrite Hd. Qed.

(** The body when the library raises: the 500 of [download_video]. *)
Lemma download_body_library_raise request w temp_dir e f' :
  mkdtemp_path (fs w) = Ok temp_dir →
  ydl_download (download_format_id request) (outtmpl temp_dir) (download_url request)
               (<[temp_dir := []]> (fs w)) = (Raise e, f') →
  download_body request w =
    (Raise (HTTPException 500 ("Error downloading video: " +:+ exn_str e)),
     downloaded request w temp_dir f').
Proof.
  intros Hd Hl. unfold download_body, bind at 1, mkdtemp. rewrite Hd.
  unfold bind at 1, download_video, try_except, bind at 1, call_download. cbn [fs calls].
  fold (outtmpl temp_dir). by rewrite Hl.
Qed.

(** X10: an exception of the library during the download gives status 500
    with the detail "Error downloading video: " and the message. *)
Theorem library_failure_is_server_error request w temp_dir e f' :
  mkdtemp_path (fs w) = Ok temp_dir →
  ydl_download (download_format_id request) (outtmpl temp_dir) (download_url request)
               (<[temp_dir := []]> (fs w)) = (Raise e, f') →
  (download_video_endpoint request w).1 =
    Raise (HTTPException 500 ("Error downloading video: " +:+ exn_str e)).
Proof.
  intros Hd Hl. unfold download_video_endpoint, try_except.
  by rewrite (download_body_library_raise _ _ _ _ _ Hd Hl).
Qed.

(** X11: when no temporary directory can be made, the request fails with
    status 500 and the detail "Download error: " and the message; the library
    is not called and the filesystem is as it was. *)
Theorem no_directory_is_server_error request w msg :
  mkdtemp_path (fs w) = Raise (PyError msg) →
  download_video_endpoint request w =
    (Raise (HTTPException 500 ("Download error: " +:+ msg)), w).
Proof.
  intros Hd. unfold download_video_endpoint, try_except.
  by rewrite (download_body_no_directory _ _ _ Hd).
Qed.

(** The outcomes of the endpoint once the directory is made. *)
Lemma download_outcome request w temp_dir :
  mkdtemp_path (fs w) = Ok temp_dir →
  ∃ f', (download_video_endpoint request w).2 = downloaded request w temp_dir f' ∧
    ((∃ name content,
        (∃ dir, f' !! temp_dir = Some dir ∧ head (dir.*1) = Some name) ∧
        Os.read_file f' (Os.path_join temp_dir name) = Some content ∧
        (download_video_endpoint request w).1 =
          Ok {| body_path := Os.path_join temp_dir name;
                media_type := "application/octet-stream";
                headers := download_headers (Os.path_basename (Os.path_join temp_dir name))
                                            (Z.of_nat (length content)) |}) ∨
     (∃ d, (download_video_endpoint request w).1 = Raise (HTTPException 500 d))).
Proof.
  intros Hd.
  destruct (ydl_download (download_format_id request) (outtmpl temp_dir) (download_url request)
              (<[temp_dir := []]> (fs w))) as [[[]|e] f'] eqn:Hl; exists f'.
  2:{ unfold download_video_endpoint, try_except.
      rewrite (download_body_library_raise _ _ _ _ _ Hd Hl). cbn. eauto. }
  unfold download_video_endpoint, try_except.
  rewrite (download_body_listing _ _ _ _ Hd Hl).
  destruct (f' !! temp_dir) as [dir|] eqn:Hdir; [|cbn; eauto].
  destruct (dir.*1) as [|name rest] eqn:Hnames; [cbn; eauto|].
  destruct (Os.read_file f' (Os.path_join temp_dir name)) as [content|] eqn:Hr; [|cbn; eauto].
  cbn. split; [done|]. left. exists name, content. split; [|done].
  exists dir. by rewrite Hnames.
Qed.

(** X12: every request to the download endpoint ends in a response or in an
    HTTPException of status 500, whatever fails (no status 400 is raised);
    [mkdtemp] is taken to raise no HTTPException. *)
Theorem download_status_codes request w :
  (∀ c d, mkdtemp_path (fs w) ≠ Raise (HTTPException c d)) →
  status (download_video_endpoint request w).1 = Some 200 ∨
  status (download_video_endpoint request w).1 = Some 500.
Proof.
  intros Hno. destruct (mkdtemp_path (fs w)) as [temp_dir|e] eqn:Hd.
  - destruct (download_outcome request w temp_dir Hd)
      as (f' & _ & [(name & content & _ & _ & ->)|(d & ->)]); cbn; eauto.
  - unfold download_video_endpoint, try_except.
    rewrite (download_body_no_directory _ _ _ Hd).
    destruct e as [msg|c d|msg]; cbn; eauto. by destruct (Hno c d).
Qed.

(** X13: once its directory is made, a download request calls the library
    exactly once, with the format and the URL of the request and an output
    template inside that directory, and a response streams a file listed in
    that directory. *)
Theorem download_uses_own_directory request w temp_dir :
  mkdtemp_path (fs w) = Ok temp_dir →
  calls (download_video_endpoint request w).2 =
    calls w ++ [Download (download_format_id request)
                         (Os.path_join temp_dir "%(title)s.%(ext)s")
                         (download_url request)] ∧
  ∀ resp, (download_video_endpoint request w).1 = Ok resp →
    ∃ dir name,
      fs (download_video_endpoint request w).2 !! temp_dir = Some dir ∧
      head (dir.*1) = Some name ∧
      body_path resp = Os.path_join temp_dir name.
Proof.
  intros Hd. destruct (download_outcome request w temp_dir Hd)
    as (f' & -> & [(name & content & (dir & Hdir & Hname) & _ & ->)|(d & ->)]).
  - split; [done|]. intros resp [= <-]. exists dir, name. done.
  - split; [done|]. discriminate.
Qed.

(** X14: the endpoint removes nothing: after the request, with a response
    or a failure, the filesystem is the one the library left, the directory
    of the request and its files included. *)
Theorem download_leaves_directory request w temp_dir :
  mkdtemp_path (fs w) = Ok temp_dir →
  fs (download_video_endpoint request w).2 =
    (ydl_download (download_format_id request) (Os.path_join temp_dir "%(title)s.%(ext)s")
                  (download_url request) (<[temp_dir := []]> (fs w))).2.
Proof.
  intros Hd. fold (outtmpl temp_dir).
  destruct (ydl_download (download_format_id request) (outtmpl temp_dir) (download_url request)
              (<[temp_dir := []]> (fs w))) as [[[]|e] f'] eqn:Hl; cbn [snd].
  - unfold download_video_endpoint, try_except.
    rewrite (download_body_listing _ _ _ _ Hd Hl).
    destruct (f' !! temp_dir) as [dir|]; [|done].
    destruct (dir.*1) as [|name rest]; [done|].
    by destruct (Os.read_file f' (Os.path_join temp_dir name)).
  - unfold download_video_endpoint, try_except.
    by rewrite (download_body_library_raise _ _ _ _ _ Hd Hl).
Qed.

End DownloadOutcomes.

(** ** Further runs of the handlers *)

Module MoreRuns.
Import Sample MoreSamples.

Lemma validator_ignores_tail_example :
  is_valid_youtube_url ("https://youtu.be/dQw4w9WgXcQ" +:+ "?t=42&feature=share") = true.
Proof. apply validator_ignores_tail. vm_compute. reflexivity. Defined.

Lemma validator_accepts_only_hosts_example :
  ∃ d rest, d ∈ host_prefixes ∧
    "https://www.youtube.com/watch?v=dQw4w9WgXcQ" = d +:+ "/" +:+ rest ∧
    (11 ≤ String.length rest)%nat.
Proof. apply validator_accepts_only_hosts. vm_compute. reflexivity. Defined.

Lemma validator_accepts_markers_example :
  is_valid_youtube_url ("https://www.youtube.com" +:+ "/" +:+ "embed/" +:+ "dQw4w9WgXcQ"
                          +:+ "?autoplay=1") = true.
Proof.
  refine (proj1 (validator_accepts_markers "https://www.youtube.com" "dQw4w9WgXcQ"
                   "?autoplay=1" _ _ _) "embed/" _).
  - vm_compute. repeat constructor.
  - reflexivity.
  - unfold id_string. cbn. repeat constructor; intros Hin%list_elem_of_In; simpl in Hin;
      repeat (destruct Hin as [Hin|Hin]; [discriminate Hin|]); exact Hin.
  - vm_compute. repeat constructor.
Defined.


Lemma malformed_formats_fail_example :
  ∃ msg, (get_info (Ok (Some (info_dict [combined "22" 720; no_format_id]))) rick).1 =
           Raise (HTTPException 500 ("Unexpected error: " +:+ msg)).
Proof.
  pose (info := info_dict [combined "22" 720; no_format_id]).
  assert (is_valid_youtube_url (request_url rick) = true) as Hv by (vm_compute; reflexivity).
  assert (falsy (Some info) = false) as Hf by (vm_compute; reflexivity).
  assert (info !! "formats" = Some (PList [combined "22" 720; no_format_id])) as Hfmts
    by (vm_compute; reflexivity).
  refine (@malformed_formats_fail python (library (Ok (Some info)) []) pydantic rick start
            info (PList [combined "22" 720; no_format_id]) Hv eq_refl Hf Hfmts _).
  apply Exists_cons_tl, Exists_cons_hd. split; vm_compute; reflexivity.
Defined.


Lemma height_label_and_key_example :
  ∃ f, @format_entry python pydantic (list_to_map combined_fields) start = (Ok f, start) ∧
       quality f = "720p" ∧ quality_key f = 720.
Proof.
  assert (∃ f, @format_entry python pydantic (list_to_map combined_fields) start = (Ok f, start))
    as (f & Hf) by (eexists; vm_compute; reflexivity).
  assert ((list_to_map combined_fields : pydict) !! "height" = Some (PInt 720)) as Hh
    by (vm_compute; reflexivity).
  exists f. split; [exact Hf|].
  exact (@height_label_and_key python pydantic (list_to_map combined_fields) start start f 720
           Hf Hh).
Defined.



Lemma library_failure_example :
  (@download_video_endpoint python (failing_library (DownloadError unknown_format)) tempfile
     download_request start).1 =
    Raise (HTTPException 500 ("Error downloading video: " +:+ unknown_format)).
Proof.
  exact (@library_failure_is_server_error python
           (failing_library (DownloadError unknown_format)) tempfile download_request start
           "/tmp/tmpk3v9x2" (DownloadError unknown_format)
           (<["/tmp/tmpk3v9x2" := []]> (fs start)) eq_refl eq_refl).
Defined.

Lemma no_directory_example :
  @download_video_endpoint python (library (Ok None) one_file) no_tempfile
    download_request start =
    (Raise (HTTPException 500 ("Download error: " +:+ full_disk)), start).
Proof.
  apply (@no_directory_is_server_error python (library (Ok None) one_file) no_tempfile
           download_request start full_disk).
  reflexivity.
Defined.

Lemma download_status_codes_example :
  status (download one_file).1 = Some 200 ∨ status (download one_file).1 = Some 500.
Proof.
  apply (@download_status_codes python (library (Ok None) one_file) tempfile
           download_request start).
  intros c d. discriminate.
Defined.

Lemma download_uses_own_directory_example :
  calls (download one_file).2 =
    [Download "18" "/tmp/tmpk3v9x2/%(title)s.%(ext)s"
              "https://www.youtube.com/watch?v=dQw4w9WgXcQ"] ∧
  ∃ resp, (download one_file).1 = Ok resp ∧
          body_path resp = "/tmp/tmpk3v9x2/Never Gonna Give You Up.mp4".
Proof.
  destruct (@download_uses_own_directory python (library (Ok None) one_file) tempfile
              download_request start "/tmp/tmpk3v9x2" eq_refl) as [Hcalls Hresp].
  split; [exact Hcalls|].
  assert (∃ resp, (download one_file).1 = Ok resp) as [resp Hrun]
    by (eexists; vm_compute; reflexivity).
  exists resp. split; [exact Hrun|].
  destruct (Hresp resp Hrun) as (dir & name & _ & _ & _).
  revert Hrun. vm_compute. intros [= <-]. reflexivity.
Defined.

Lemma download_leaves_directory_example :
  Os.read_file (fs (download one_file).2) "/tmp/tmpk3v9x2/Never Gonna Give You Up.mp4"
    = Some clip.
Proof.
  unfold download.
  rewrite (@download_leaves_directory python (library (Ok None) one_file) tempfile
             download_request start "/tmp/tmpk3v9x2" eq_refl).
  vm_compute. reflexivity.
Defined.

End MoreRuns.
